(** * Header tag output formats of rpm (lib/formats.c)

    A shallow embedding of the converters of [lib/formats.c] and of the
    registry that names them, with the properties the specification states
    about them.

    Conventions of the embedding.
    - A C string is a [string]; [strcat] is append, [strlen] is [String.length].
    - A byte ([uint8_t]) and every fixed-width integer is a [Z]; wrap-around
      is written out where the code relies on it.
    - A converter [char *f(rpmtd td, char *formatPrefix)] becomes a function
      from the tag data container and the template to an [outcome]: the
      returned pointer ([None] for [NULL]) together with the template as the
      call leaves it, or [Fault] when the call reads through a [NULL] pointer
      or outside its buffer.
    - Everything the file takes from libc, from rpmio and from the headers
      that are not part of [lib/formats.c] (constants, [printf], [strftime],
      [gettext], base64, the OpenPGP packet parser) is a field of the class
      [Env].  The statements hold for every environment that meets the
      laws they name; [CLocale.env] is an environment that runs.

    The first part holds the embedding and the notions the statements use,
    the second part the statements and their proofs. *)

From Stdlib Require Import ZArith List String Ascii Bool Arith Lia.
From Equations Require Import Equations.
Import ListNotations.

Local Open Scope string_scope.
Local Open Scope Z_scope.

(** ** C strings *)

Definition strcat (dst src : string) : string := dst ++ src.
Definition strlen (s : string) : nat := String.length s.
Definition xstrdup (s : string) : string := s.

(** The character form of a value the code stores into a [char]. *)
Definition digit_char (d : Z) : ascii :=
  match String.get (Z.to_nat d) "0123456789abcdef" with
  | Some c => c
  | None => "?"%char
  end.

Fixpoint utoa_aux (fuel : nat) (base n : Z) (acc : string) : string :=
  match fuel with
  | O => acc
  | S fuel' =>
      let acc' := String (digit_char (n mod base)) acc in
      if n / base =? 0 then acc' else utoa_aux fuel' base (n / base) acc'
  end.

(** The numeral of a non-negative integer of at most 64 bits in [base]. *)
Definition utoa (base n : Z) : string := utoa_aux 64 base n "".

(** What [printf("%d", n)] writes. *)
Definition itoa (n : Z) : string :=
  if n <? 0 then "-" ++ utoa 10 (- n) else utoa 10 n.

(** [snprintf(t, size, "%d", n)]: at most [size - 1] characters are written
    before the terminating NUL. *)
Definition snprintf_d (size : nat) (n : Z) : string :=
  substring 0 (size - 1) (itoa n).

(** Basic facts about strings, used by the termination argument of the
    loop of [pgpsigFormat] and by the proofs below. *)

Lemma strlen_app (a b : string) : strlen (a ++ b) = (strlen a + strlen b)%nat.
Proof.
  unfold strlen. induction a as [|c a IH]; simpl; [reflexivity|].
  now rewrite IH.
Qed.

Lemma str_app_assoc (a b c : string) : (a ++ b) ++ c = a ++ (b ++ c).
Proof.
  induction a as [|x a IH]; simpl; [reflexivity|]. now rewrite IH.
Qed.

Lemma str_app_nil_r (a : string) : a ++ "" = a.
Proof.
  induction a as [|x a IH]; simpl; [reflexivity|]. now rewrite IH.
Qed.

Lemma substring_whole (s : string) (m : nat) :
  (strlen s <= m)%nat -> substring 0 m s = s.
Proof.
  unfold strlen. revert m.
  induction s as [|c s IH]; intros [|m] Hm; simpl in *; try reflexivity; try lia.
  rewrite IH by lia. reflexivity.
Qed.

Lemma substring_strlen (s : string) (m : nat) :
  strlen (substring 0 m s) = Nat.min m (strlen s).
Proof.
  unfold strlen. revert m.
  induction s as [|c s IH]; intros [|m]; simpl; try reflexivity.
  now rewrite IH.
Qed.

Lemma snprintf_d_roomy (size : nat) (n : Z) :
  (strlen (itoa n) < size)%nat -> snprintf_d size n = itoa n.
Proof.
  intros H. unfold snprintf_d. apply substring_whole. lia.
Qed.

(** ** The tag data container (rpmtd.h) *)

Inductive rpmTagType : Set :=
| RPM_NULL_TYPE
| RPM_CHAR_TYPE
| RPM_INT8_TYPE
| RPM_INT16_TYPE
| RPM_INT32_TYPE
| RPM_INT64_TYPE
| RPM_STRING_TYPE
| RPM_BIN_TYPE
| RPM_STRING_ARRAY_TYPE
| RPM_I18NSTRING_TYPE.

Definition rpmTagType_eqb (a b : rpmTagType) : bool :=
  match a, b with
  | RPM_NULL_TYPE, RPM_NULL_TYPE
  | RPM_CHAR_TYPE, RPM_CHAR_TYPE
  | RPM_INT8_TYPE, RPM_INT8_TYPE
  | RPM_INT16_TYPE, RPM_INT16_TYPE
  | RPM_INT32_TYPE, RPM_INT32_TYPE
  | RPM_INT64_TYPE, RPM_INT64_TYPE
  | RPM_STRING_TYPE, RPM_STRING_TYPE
  | RPM_BIN_TYPE, RPM_BIN_TYPE
  | RPM_STRING_ARRAY_TYPE, RPM_STRING_ARRAY_TYPE
  | RPM_I18NSTRING_TYPE, RPM_I18NSTRING_TYPE => true
  | _, _ => false
  end.

(** What the [data] pointer of a container points to. *)
Inductive td_data : Type :=
| Data_none
| Data_ints (items : list Z)
| Data_string (str : string)
| Data_strings (strs : list string)
| Data_bytes (bytes : list Z).

Record rpmtd : Type := mk_rpmtd {
  td_type : rpmTagType;
  td_count : Z;
  td_data_of : td_data;
  td_ix : Z
}.

Definition rpmtdType (td : rpmtd) : rpmTagType := td_type td.
Definition rpmtdCount (td : rpmtd) : Z := td_count td.

(** [int ix = (td->ix >= 0 ? td->ix : 0)] *)
Definition td_index (td : rpmtd) : nat := Z.to_nat (Z.max (td_ix td) 0).

Definition td_item (td : rpmtd) : option Z :=
  match td_data_of td with
  | Data_ints items => nth_error items (td_index td)
  | _ => None
  end.

(** Modelled from the spec: the accessors of lib/rpmtd.c, which is not part
    of the sources at hand.  Each returns a pointer to the current element
    when the container has the kind it serves and [NULL] otherwise; a scalar
    kind holds one value whatever its count. *)
Definition rpmtdGetChar (td : rpmtd) : option Z :=
  match rpmtdType td with
  | RPM_CHAR_TYPE | RPM_INT8_TYPE => td_item td
  | _ => None
  end.

Definition rpmtdGetUint16 (td : rpmtd) : option Z :=
  match rpmtdType td with
  | RPM_INT16_TYPE => td_item td
  | _ => None
  end.

Definition rpmtdGetUint32 (td : rpmtd) : option Z :=
  match rpmtdType td with
  | RPM_INT32_TYPE => td_item td
  | _ => None
  end.

Definition rpmtdGetUint64 (td : rpmtd) : option Z :=
  match rpmtdType td with
  | RPM_INT64_TYPE => td_item td
  | _ => None
  end.

Definition rpmtdGetString (td : rpmtd) : option string :=
  match rpmtdType td with
  | RPM_STRING_TYPE =>
      match td_data_of td with
      | Data_string str => Some str
      | _ => None
      end
  | RPM_STRING_ARRAY_TYPE | RPM_I18NSTRING_TYPE =>
      match td_data_of td with
      | Data_strings strs => nth_error strs (td_index td)
      | _ => None
      end
  | _ => None
  end.

(** [td->data] as a pointer to bytes. *)
Definition td_bytes (td : rpmtd) : option (list Z) :=
  match td_data_of td with
  | Data_bytes bytes => Some bytes
  | _ => None
  end.

(** The [td->count] bytes at [td->data], when they can all be read. *)
Definition td_blob (td : rpmtd) : option (list Z) :=
  match td_bytes td with
  | Some bytes =>
      let ns := Z.to_nat (td_count td) in
      if (ns <=? List.length bytes)%nat then Some (firstn ns bytes) else None
  | None => None
  end.

(** The format codes of rpmtd.h. *)
Inductive rpmtdFormats : Set :=
| RPMTD_FORMAT_STRING
| RPMTD_FORMAT_ARMOR
| RPMTD_FORMAT_BASE64
| RPMTD_FORMAT_PGPSIG
| RPMTD_FORMAT_DEPFLAGS
| RPMTD_FORMAT_FFLAGS
| RPMTD_FORMAT_PERMS
| RPMTD_FORMAT_TRIGGERTYPE
| RPMTD_FORMAT_XML
| RPMTD_FORMAT_OCTAL
| RPMTD_FORMAT_HEX
| RPMTD_FORMAT_DATE
| RPMTD_FORMAT_DAY
| RPMTD_FORMAT_SHESCAPE
| RPMTD_FORMAT_ARRAYSIZE.

Definition rpmtdFormats_eqb (a b : rpmtdFormats) : bool :=
  match a, b with
  | RPMTD_FORMAT_STRING, RPMTD_FORMAT_STRING
  | RPMTD_FORMAT_ARMOR, RPMTD_FORMAT_ARMOR
  | RPMTD_FORMAT_BASE64, RPMTD_FORMAT_BASE64
  | RPMTD_FORMAT_PGPSIG, RPMTD_FORMAT_PGPSIG
  | RPMTD_FORMAT_DEPFLAGS, RPMTD_FORMAT_DEPFLAGS
  | RPMTD_FORMAT_FFLAGS, RPMTD_FORMAT_FFLAGS
  | RPMTD_FORMAT_PERMS, RPMTD_FORMAT_PERMS
  | RPMTD_FORMAT_TRIGGERTYPE, RPMTD_FORMAT_TRIGGERTYPE
  | RPMTD_FORMAT_XML, RPMTD_FORMAT_XML
  | RPMTD_FORMAT_OCTAL, RPMTD_FORMAT_OCTAL
  | RPMTD_FORMAT_HEX, RPMTD_FORMAT_HEX
  | RPMTD_FORMAT_DATE, RPMTD_FORMAT_DATE
  | RPMTD_FORMAT_DAY, RPMTD_FORMAT_DAY
  | RPMTD_FORMAT_SHESCAPE, RPMTD_FORMAT_SHESCAPE
  | RPMTD_FORMAT_ARRAYSIZE, RPMTD_FORMAT_ARRAYSIZE => true
  | _, _ => false
  end.

(** ** What a converter call produces *)

Inductive outcome : Type :=
| Fault
| Ret (val : option string) (formatPrefix : string).

(** Reading through a pointer: a [NULL] pointer faults. *)
Definition deref {A : Type} (p : option A) (k : A -> outcome) : outcome :=
  match p with
  | Some a => k a
  | None => Fault
  end.

Definition converter : Type := rpmtd -> string -> outcome.

(** ** The environment of lib/formats.c *)

(** The argument a [printf] directive consumes. *)
Inductive printf_arg : Type :=
| Arg_int (n : Z)
| Arg_int64 (n : Z)
| Arg_str (s : string).

(** The fields of [struct tm] of <time.h> that dates are written from. *)
Record tm : Type := mk_tm {
  tm_sec : Z; tm_min : Z; tm_hour : Z;
  tm_mday : Z; tm_mon : Z; tm_year : Z;
  tm_wday : Z
}.

(** The signature parameters [pgpPrtPkts] fills in (rpmio/digest.h):
    one-byte algorithm ids, a 4-byte creation time and an 8-byte key id. *)
Record pgpDigParams : Type := mk_pgpDigParams {
  pubkey_algo : Z;
  hash_algo : Z;
  time : list Z;
  signid : list Z
}.

Class Env : Type := {
  (** <inttypes.h> *)
  PRIu8 : string;
  PRIu16 : string;
  PRIu32 : string;
  PRIu64 : string;
  (** system.h: the macro [_], a lookup in the message catalogue *)
  gettext : string -> string;
  (** rpmstring.h: [rasprintf(&val, fmt, arg)], the string it allocates *)
  rasprintf : string -> printf_arg -> string;
  (** <time.h>: [localtime] returns [NULL] when it cannot convert *)
  localtime : Z -> option tm;
  (** <time.h>: all of what [strftime] would write with room enough *)
  strftime_full : string -> tm -> string;
  (** <time.h>: the string found at the start of the array after a call
      of [strftime] that returned 0 because the result did not fit in
      [max] bytes; the C standard leaves that content indeterminate *)
  strftime_overflow : nat -> string -> tm -> string;
  (** rpmfi.h *)
  rpmPermsString : Z -> string;
  RPMFILE_CONFIG : Z;
  RPMFILE_DOC : Z;
  RPMFILE_MISSINGOK : Z;
  RPMFILE_NOREPLACE : Z;
  RPMFILE_SPECFILE : Z;
  RPMFILE_GHOST : Z;
  RPMFILE_LICENSE : Z;
  RPMFILE_README : Z;
  (** rpmds.h *)
  RPMSENSE_LESS : Z;
  RPMSENSE_GREATER : Z;
  RPMSENSE_EQUAL : Z;
  RPMSENSE_TRIGGERIN : Z;
  RPMSENSE_TRIGGERUN : Z;
  RPMSENSE_TRIGGERPOSTUN : Z;
  RPMSENSE_TRIGGERPREIN : Z;
  (** rpmio/base64.h: [b64encode(data, len, -1)], given the [data]
      pointer ([None] for [NULL]) and the length, returns [NULL] on
      failure; [b64decode] returns a non-zero code on failure *)
  b64encode : option (list Z) -> Z -> option string;
  b64decode : string -> option (list Z);
  (** rpmpgp.h *)
  PGPARMOR_SIGNATURE : Z;
  PGPARMOR_PUBKEY : Z;
  PGPTAG_SIGNATURE : Z;
  PGPPUBKEYALGO_RSA : Z;
  PGPPUBKEYALGO_DSA : Z;
  PGPHASHALGO_MD5 : Z;
  PGPHASHALGO_SHA1 : Z;
  pgpArmorWrap : Z -> list Z -> string;
  (** [pgpLen(s, &len)]: the size of a new-format length field and
      the body length it encodes; [None] when [s] is too short for it *)
  pgpLen : list Z -> option (Z * Z);
  (** [pgpPrtPkts(pkt, pktlen, dig, 0)]: the signature parameters left in
      [dig]; they stay zeroed when the packet does not parse *)
  pgpPrtPkts : list Z -> Z -> pgpDigParams
}.

(** [strftime(buf, max, fmt, tstruct)] followed by a read of [buf] as a
    string: the result fits when its length plus the NUL is at most
    [max]. *)
Definition strftime `{Env} (max : nat) (fmt : string) (tstruct : tm) : string :=
  let full := strftime_full fmt tstruct in
  if (strlen full <? max)%nat then full else strftime_overflow max fmt tstruct.

(** Modelled from the spec: the inline helper [pgpGrab] of rpmpgp.h, which
    is not part of the sources at hand.  It reads a big-endian number from
    the first [nbytes] bytes into an [unsigned int], four bytes at most. *)
Definition pgpGrab (s : list Z) (nbytes : nat) : Z :=
  fold_left (fun i b => Z.lor (Z.shiftl i 8) b mod 2 ^ 32)
            (firstn (Nat.min nbytes 4) s) 0.

(** Whether [nbytes] bytes can be read from [s]. *)
Definition readable (s : list Z) (nbytes : nat) : bool :=
  (nbytes <=? List.length s)%nat.

(** Modelled from the spec: [pgpHexStr] of rpmio, which is not part of the
    sources at hand: the lowercase hexadecimal form of the first [plen]
    bytes, two digits a byte. *)
Definition hex_byte (b : Z) : string :=
  String (digit_char (Z.shiftr b 4 mod 16)) (String (digit_char (b mod 16)) "").

Definition pgpHexStr (p : list Z) (plen : nat) : string :=
  String.concat "" (map hex_byte (firstn plen p)).

(** A C condition on an integer: non-zero is true. *)
Definition nonzero (n : Z) : bool := negb (n =? 0).

(** ** The converters *)

Section Converters.
Context `{E : Env}.

(** barebones string representation with no extra formatting *)
Definition stringFormat (td : rpmtd) (formatPrefix : string) : outcome :=
  match rpmtdType td with
  | RPM_INT8_TYPE | RPM_CHAR_TYPE =>
      let formatPrefix := strcat formatPrefix PRIu8 in
      deref (rpmtdGetChar td) (fun item =>
        Ret (Some (rasprintf formatPrefix (Arg_int item))) formatPrefix)
  | RPM_INT16_TYPE =>
      let formatPrefix := strcat formatPrefix PRIu16 in
      deref (rpmtdGetUint16 td) (fun item =>
        Ret (Some (rasprintf formatPrefix (Arg_int item))) formatPrefix)
  | RPM_INT32_TYPE =>
      let formatPrefix := strcat formatPrefix PRIu32 in
      deref (rpmtdGetUint32 td) (fun item =>
        Ret (Some (rasprintf formatPrefix (Arg_int item))) formatPrefix)
  | RPM_INT64_TYPE =>
      let formatPrefix := strcat formatPrefix PRIu64 in
      deref (rpmtdGetUint64 td) (fun item =>
        Ret (Some (rasprintf formatPrefix (Arg_int64 item))) formatPrefix)
  | RPM_STRING_TYPE | RPM_STRING_ARRAY_TYPE | RPM_I18NSTRING_TYPE =>
      deref (rpmtdGetString td) (fun str =>
        let formatPrefix := strcat formatPrefix "s" in
        Ret (Some (rasprintf formatPrefix (Arg_str str))) formatPrefix)
  | RPM_BIN_TYPE =>
      deref (td_blob td) (fun data =>
        let buf := pgpHexStr data (Z.to_nat (td_count td)) in
        let formatPrefix := strcat formatPrefix "s" in
        Ret (Some (rasprintf formatPrefix (Arg_str buf))) formatPrefix)
  | _ => Ret (Some (xstrdup "(unknown type)")) formatPrefix
  end.

Definition octalFormat (td : rpmtd) (formatPrefix : string) : outcome :=
  if negb (rpmTagType_eqb (rpmtdType td) RPM_INT32_TYPE) then
    Ret (Some (xstrdup (gettext "(not a number)"))) formatPrefix
  else
    let formatPrefix := strcat formatPrefix "o" in
    deref (rpmtdGetUint32 td) (fun item =>
      Ret (Some (rasprintf formatPrefix (Arg_int item))) formatPrefix).

Definition hexFormat (td : rpmtd) (formatPrefix : string) : outcome :=
  if negb (rpmTagType_eqb (rpmtdType td) RPM_INT32_TYPE) then
    Ret (Some (xstrdup (gettext "(not a number)"))) formatPrefix
  else
    let formatPrefix := strcat formatPrefix "x" in
    deref (rpmtdGetUint32 td) (fun item =>
      Ret (Some (rasprintf formatPrefix (Arg_int item))) formatPrefix).

(** [buf] has 50 bytes and [strftime] is given [sizeof(buf) - 1] of them;
    [buf[0]] is cleared first, so a failed [localtime] leaves the empty
    string. *)
Definition realDateFormat (td : rpmtd) (formatPrefix : string)
    (strftimeFormat : string) : outcome :=
  if negb (rpmTagType_eqb (rpmtdType td) RPM_INT32_TYPE) then
    Ret (Some (xstrdup (gettext "(not a number)"))) formatPrefix
  else
    let formatPrefix := strcat formatPrefix "s" in
    deref (rpmtdGetUint32 td) (fun rt =>
      let dateint := rt in
      let buf :=
        match localtime dateint with
        | Some tstruct => strftime (50 - 1) strftimeFormat tstruct
        | None => ""
        end in
      Ret (Some (rasprintf formatPrefix (Arg_str buf))) formatPrefix).

Definition dateFormat (td : rpmtd) (formatPrefix : string) : outcome :=
  realDateFormat td formatPrefix (gettext "%c").

Definition dayFormat (td : rpmtd) (formatPrefix : string) : outcome :=
  realDateFormat td formatPrefix (gettext "%a %b %d %Y").

(** The copy loop of [shescapeFormat]: [src] walks [buf], [dst] receives
    four characters for a single quote and the character itself
    otherwise. *)
Fixpoint shescape_copy (src : string) : string :=
  match src with
  | EmptyString => ""
  | String c src' =>
      if Ascii.eqb c "'"%char
      then String "'" (String "\" (String "'" (String "'" (shescape_copy src'))))
      else String c (shescape_copy src')
  end.

Definition shescapeFormat (td : rpmtd) (formatPrefix : string) : outcome :=
  if rpmTagType_eqb (rpmtdType td) RPM_INT32_TYPE then
    let formatPrefix := strcat formatPrefix "d" in
    deref (rpmtdGetUint32 td) (fun item =>
      Ret (Some (rasprintf formatPrefix (Arg_int item))) formatPrefix)
  else
    let formatPrefix := strcat formatPrefix "s" in
    deref (rpmtdGetString td) (fun str =>
      let buf := rasprintf formatPrefix (Arg_str str) in
      let result := String "'" (shescape_copy buf ++ "'") in
      Ret (Some result) formatPrefix).

(** [item] is only read once the kind is known to be Int32. *)
Definition triggertypeFormat (td : rpmtd) (formatPrefix : string) : outcome :=
  let item := rpmtdGetUint32 td in
  if negb (rpmTagType_eqb (rpmtdType td) RPM_INT32_TYPE) then
    Ret (Some (xstrdup (gettext "(not a number)"))) formatPrefix
  else
    deref item (fun item =>
      if nonzero (Z.land item RPMSENSE_TRIGGERPREIN) then
        Ret (Some (xstrdup "prein")) formatPrefix
      else if nonzero (Z.land item RPMSENSE_TRIGGERIN) then
        Ret (Some (xstrdup "in")) formatPrefix
      else if nonzero (Z.land item RPMSENSE_TRIGGERUN) then
        Ret (Some (xstrdup "un")) formatPrefix
      else if nonzero (Z.land item RPMSENSE_TRIGGERPOSTUN) then
        Ret (Some (xstrdup "postun")) formatPrefix
      else
        Ret (Some (xstrdup "")) formatPrefix).

Definition permsFormat (td : rpmtd) (formatPrefix : string) : outcome :=
  if negb (rpmTagType_eqb (rpmtdType td) RPM_INT32_TYPE) then
    Ret (Some (xstrdup (gettext "(not a number)"))) formatPrefix
  else
    let formatPrefix := strcat formatPrefix "s" in
    deref (rpmtdGetUint32 td) (fun item =>
      let buf := rpmPermsString item in
      Ret (Some (rasprintf formatPrefix (Arg_str buf))) formatPrefix).

(** [if (anint & flag) strcat(buf, c);] *)
Definition strcat_if (anint flag : Z) (buf c : string) : string :=
  if nonzero (Z.land anint flag) then strcat buf c else buf.

Definition fflagsFormat (td : rpmtd) (formatPrefix : string) : outcome :=
  if negb (rpmTagType_eqb (rpmtdType td) RPM_INT32_TYPE) then
    Ret (Some (xstrdup (gettext "(not a number)"))) formatPrefix
  else
    deref (rpmtdGetUint32 td) (fun anint =>
      let buf := "" in
      let buf := strcat_if anint RPMFILE_DOC buf "d" in
      let buf := strcat_if anint RPMFILE_CONFIG buf "c" in
      let buf := strcat_if anint RPMFILE_SPECFILE buf "s" in
      let buf := strcat_if anint RPMFILE_MISSINGOK buf "m" in
      let buf := strcat_if anint RPMFILE_NOREPLACE buf "n" in
      let buf := strcat_if anint RPMFILE_GHOST buf "g" in
      let buf := strcat_if anint RPMFILE_LICENSE buf "l" in
      let buf := strcat_if anint RPMFILE_README buf "r" in
      let formatPrefix := strcat formatPrefix "s" in
      Ret (Some (rasprintf formatPrefix (Arg_str buf))) formatPrefix).

Definition armorFormat (td : rpmtd) (formatPrefix : string) : outcome :=
  match rpmtdType td with
  | RPM_BIN_TYPE =>
      deref (td_blob td) (fun s =>
        let atype := PGPARMOR_SIGNATURE in
        Ret (Some (pgpArmorWrap atype s)) formatPrefix)
  | RPM_STRING_TYPE | RPM_STRING_ARRAY_TYPE =>
      deref (rpmtdGetString td) (fun enc =>
        match b64decode enc with
        | None => Ret (Some (xstrdup (gettext "(not base64)"))) formatPrefix
        | Some bs =>
            let atype := PGPARMOR_PUBKEY in
            Ret (Some (pgpArmorWrap atype bs)) formatPrefix
        end)
  | _ => Ret (Some (xstrdup (gettext "(invalid type)"))) formatPrefix
  end.

(** [val] starts as [NULL] and is only assigned when [b64encode]
    returned a string. *)
Definition base64Format (td : rpmtd) (formatPrefix : string) : outcome :=
  if negb (rpmTagType_eqb (rpmtdType td) RPM_BIN_TYPE) then
    Ret (Some (xstrdup (gettext "(not a blob)"))) formatPrefix
  else
    match b64encode (td_bytes td) (td_count td) with
    | Some enc =>
        let formatPrefix := strcat formatPrefix "s" in
        Ret (Some (rasprintf formatPrefix (Arg_str enc))) formatPrefix
    | None => Ret None formatPrefix
    end.

Definition depflagsFormat (td : rpmtd) (formatPrefix : string) : outcome :=
  if negb (rpmTagType_eqb (rpmtdType td) RPM_INT32_TYPE) then
    Ret (Some (xstrdup (gettext "(not a number)"))) formatPrefix
  else
    deref (rpmtdGetUint32 td) (fun anint =>
      let buf := "" in
      let buf := strcat_if anint RPMSENSE_LESS buf "<" in
      let buf := strcat_if anint RPMSENSE_GREATER buf ">" in
      let buf := strcat_if anint RPMSENSE_EQUAL buf "=" in
      let formatPrefix := strcat formatPrefix "s" in
      Ret (Some (rasprintf formatPrefix (Arg_str buf))) formatPrefix).

Definition arraysizeFormat (td : rpmtd) (formatPrefix : string) : outcome :=
  let formatPrefix := strcat formatPrefix "u" in
  Ret (Some (rasprintf formatPrefix (Arg_int (rpmtdCount td)))) formatPrefix.

(** *** The signature summary

    The pieces of the summary, as they come out with room to spare. *)

Definition pubkey_algo_name (sigp : pgpDigParams) : string :=
  if pubkey_algo sigp =? PGPPUBKEYALGO_DSA then "DSA"
  else if pubkey_algo sigp =? PGPPUBKEYALGO_RSA then "RSA"
  else itoa (pubkey_algo sigp).

Definition hash_algo_name (sigp : pgpDigParams) : string :=
  if hash_algo sigp =? PGPHASHALGO_MD5 then "MD5"
  else if hash_algo sigp =? PGPHASHALGO_SHA1 then "SHA1"
  else itoa (hash_algo sigp).

(** [sizeof(sigp->time)] and [sizeof(sigp->signid)] *)
Definition sizeof_time : nat := 4.
Definition sizeof_signid : nat := 8.

Definition sig_date (sigp : pgpDigParams) : string :=
  match localtime (pgpGrab (time sigp) sizeof_time) with
  | Some tstruct => strftime_full "%c" tstruct
  | None => ""
  end.

(** The summary written in one go into a buffer without bound: algorithm
    name, [/], hash name, [, ], localized date, [, Key ID ], hex key id. *)
Definition pgpsig_single_pass (sigp : pgpDigParams) : string :=
  pubkey_algo_name sigp ++ "/" ++ hash_algo_name sigp ++ ", " ++
  sig_date sigp ++ ", Key ID " ++ pgpHexStr (signid sigp) sizeof_signid.

(** One run through the body of the loop of [pgpsigFormat] with a buffer of
    [nb + 1] bytes, from the label [again] (after [nb += 100]) on.  The
    string [t] is what lies between [val] and the pointer [t] of the code,
    so that [t - val] is [strlen t].  [None] is a [goto again]. *)
Definition pgpsig_pass (sigp : pgpDigParams) (nb : nat) : option string :=
  let t := "" in
  let t :=
    if pubkey_algo sigp =? PGPPUBKEYALGO_DSA then t ++ "DSA"
    else if pubkey_algo sigp =? PGPPUBKEYALGO_RSA then t ++ "RSA"
    else t ++ snprintf_d (nb - strlen t) (pubkey_algo sigp) in
  if (nb <=? strlen t + 5)%nat then None else
  let t := t ++ "/" in
  let t :=
    if hash_algo sigp =? PGPHASHALGO_MD5 then t ++ "MD5"
    else if hash_algo sigp =? PGPHASHALGO_SHA1 then t ++ "SHA1"
    else t ++ snprintf_d (nb - strlen t) (hash_algo sigp) in
  if (nb <=? strlen t + strlen ", " + 1)%nat then None else
  let t := t ++ ", " in
  let dateint := pgpGrab (time sigp) sizeof_time in
  let t :=
    match localtime dateint with
    | Some tstruct => t ++ strftime (nb - strlen t) "%c" tstruct
    | None => t
    end in
  if (nb <=? strlen t + strlen ", Key ID " + 1)%nat then None else
  let t := t ++ ", Key ID " in
  let tempstr := pgpHexStr (signid sigp) sizeof_signid in
  if (nb <? strlen t + strlen tempstr)%nat then None else
  Some (t ++ tempstr).

(** With [strlen (pgpsig_single_pass sigp) + 2] bytes or more nothing is
    cut short and every slack test passes: the run returns the whole
    summary.  The loop below terminates for this reason. *)
Lemma pgpsig_pass_roomy (sigp : pgpDigParams) (nb : nat) :
  (strlen (pgpsig_single_pass sigp) + 2 <= nb)%nat ->
  pgpsig_pass sigp nb = Some (pgpsig_single_pass sigp).
Proof.
  unfold pgpsig_single_pass, pgpsig_pass, sig_date, pubkey_algo_name,
    hash_algo_name, strftime.
  set (k := pgpHexStr (signid sigp) sizeof_signid).
  set (dateint := pgpGrab (time sigp) sizeof_time).
  intros Hnb.
  repeat rewrite strlen_app in Hnb. simpl in Hnb.
  assert (Ha : (if pubkey_algo sigp =? PGPPUBKEYALGO_DSA then "" ++ "DSA"
                else if pubkey_algo sigp =? PGPPUBKEYALGO_RSA then "" ++ "RSA"
                else "" ++ snprintf_d (nb - strlen "") (pubkey_algo sigp))
               = (if pubkey_algo sigp =? PGPPUBKEYALGO_DSA then "DSA"
                  else if pubkey_algo sigp =? PGPPUBKEYALGO_RSA then "RSA"
                  else itoa (pubkey_algo sigp))).
  { destruct (pubkey_algo sigp =? PGPPUBKEYALGO_DSA); [reflexivity|].
    destruct (pubkey_algo sigp =? PGPPUBKEYALGO_RSA); [reflexivity|].
    simpl. rewrite snprintf_d_roomy; [reflexivity|]. simpl. lia. }
  rewrite Ha. clear Ha.
  set (a := if pubkey_algo sigp =? PGPPUBKEYALGO_DSA then "DSA"
            else if pubkey_algo sigp =? PGPPUBKEYALGO_RSA then "RSA"
            else itoa (pubkey_algo sigp)) in *.
  assert (Hh : (if hash_algo sigp =? PGPHASHALGO_MD5 then (a ++ "/") ++ "MD5"
                else if hash_algo sigp =? PGPHASHALGO_SHA1 then (a ++ "/") ++ "SHA1"
                else (a ++ "/") ++ snprintf_d (nb - strlen (a ++ "/")) (hash_algo sigp))
               = (a ++ "/") ++
                 (if hash_algo sigp =? PGPHASHALGO_MD5 then "MD5"
                  else if hash_algo sigp =? PGPHASHALGO_SHA1 then "SHA1"
                  else itoa (hash_algo sigp))).
  { destruct (hash_algo sigp =? PGPHASHALGO_MD5); [reflexivity|].
    destruct (hash_algo sigp =? PGPHASHALGO_SHA1); [reflexivity|].
    rewrite snprintf_d_roomy; [reflexivity|].
    rewrite strlen_app. simpl. lia. }
  set (h := if hash_algo sigp =? PGPHASHALGO_MD5 then "MD5"
            else if hash_algo sigp =? PGPHASHALGO_SHA1 then "SHA1"
            else itoa (hash_algo sigp)) in *.
  destruct (Nat.leb_spec nb (strlen a + 5)) as [Hbad|_]; [lia|].
  rewrite Hh. clear Hh.
  destruct (Nat.leb_spec nb (strlen ((a ++ "/") ++ h) + strlen ", " + 1))
    as [Hbad|_].
  { repeat rewrite strlen_app in Hbad. simpl in Hbad. lia. }
  set (d := match localtime dateint with
            | Some tstruct => strftime_full "%c" tstruct
            | None => ""
            end) in *.
  assert (Hd : match localtime dateint with
               | Some tstruct =>
                   (((a ++ "/") ++ h) ++ ", ") ++
                   (if (strlen (strftime_full "%c" tstruct) <?
                        nb - strlen (((a ++ "/") ++ h) ++ ", "))%nat
                    then strftime_full "%c" tstruct
                    else strftime_overflow
                           (nb - strlen (((a ++ "/") ++ h) ++ ", ")) "%c" tstruct)
               | None => ((a ++ "/") ++ h) ++ ", "
               end = (((a ++ "/") ++ h) ++ ", ") ++ d).
  { subst d. destruct (localtime dateint) as [tstruct|].
    - destruct (Nat.ltb_spec (strlen (strftime_full "%c" tstruct))
                  (nb - strlen (((a ++ "/") ++ h) ++ ", "))) as [_|Hbad];
        [reflexivity|].
      repeat rewrite strlen_app in Hbad. simpl in Hbad. lia.
    - now rewrite str_app_nil_r. }
  rewrite Hd. clear Hd.
  destruct (Nat.leb_spec nb
              (strlen ((((a ++ "/") ++ h) ++ ", ") ++ d) + strlen ", Key ID " + 1))
    as [Hbad|_].
  { repeat rewrite strlen_app in Hbad. simpl in Hbad. lia. }
  destruct (Nat.ltb_spec nb
              (strlen (((((a ++ "/") ++ h) ++ ", ") ++ d) ++ ", Key ID ") + strlen k))
    as [Hbad|_].
  { repeat rewrite strlen_app in Hbad. simpl in Hbad. lia. }
  f_equal. repeat rewrite str_app_assoc. reflexivity.
Qed.

Definition inspect {A : Type} (a : A) : {b : A | a = b} := exist _ a eq_refl.

(** The loop of [pgpsigFormat]: [nb] is the size before [nb += 100]; a run
    that hits a [goto again] starts over with the larger buffer, and
    nothing of the abandoned run is kept. *)
Equations? pgpsig_again (sigp : pgpDigParams) (nb : nat) : string
  by wf (strlen (pgpsig_single_pass sigp) + 2 - nb)%nat lt :=
  pgpsig_again sigp nb with inspect (pgpsig_pass sigp (nb + 100)) := {
    | exist _ (Some val) _ => val
    | exist _ None Hagain => pgpsig_again sigp (nb + 100) }.
Proof.
  destruct (Nat.le_gt_cases (strlen (pgpsig_single_pass sigp) + 2) (nb + 100))
    as [Hroom|Hshort].
  - rewrite (pgpsig_pass_roomy sigp (nb + 100) Hroom) in Hagain. discriminate.
  - lia.
Qed.

(** [size_t] has 64 bits (LP64). *)
Definition SIZE_MOD : Z := 2 ^ 64.

(** The header of the first packet: the tag and the length of the whole
    packet, from the first byte [v] and the bytes [rest] that follow it.
    A first byte without bit 7 leaves [tag] and [pktlen] at 0.  [None] is a
    read past the end of the data. *)
Definition pgpsig_header (v : Z) (rest : list Z) : option (Z * Z) :=
  if nonzero (Z.land v 128) then
    if nonzero (Z.land v 64) then
      let tag := Z.land v 63 in
      match pgpLen rest with
      | Some (plen, hlen) => Some (tag, (1 + plen + hlen) mod SIZE_MOD)
      | None => None
      end
    else
      let tag := Z.land (Z.shiftr v 2) 15 in
      let plen := Z.shiftl 1 (Z.land v 3) in
      if readable rest (Nat.min (Z.to_nat plen) 4) then
        let hlen := pgpGrab rest (Z.to_nat plen) in
        Some (tag, (1 + plen + hlen) mod SIZE_MOD)
      else None
  else Some (0, 0).

Definition pgpsigFormat (td : rpmtd) (formatPrefix : string) : outcome :=
  if negb (rpmTagType_eqb (rpmtdType td) RPM_BIN_TYPE) then
    Ret (Some (xstrdup (gettext "(not a blob)"))) formatPrefix
  else
    deref (td_bytes td) (fun pkt =>
    deref (nth_error pkt 0) (fun v =>
    deref (pgpsig_header v (tl pkt)) (fun '(tag, pktlen) =>
      if (pktlen =? 0) || negb (tag =? PGPTAG_SIGNATURE) then
        Ret (Some (xstrdup (gettext "(not an OpenPGP signature)"))) formatPrefix
      else
        let sigp := pgpPrtPkts pkt pktlen in
        Ret (Some (pgpsig_again sigp 0)) formatPrefix))).

(** *** The registry and the XML converter

    [xmlFormat] renders the inner text with [rpmtdFormat], which looks the
    converter up in the table that also lists [xmlFormat].  The table, the
    lookups and [rpmtdFormat] are therefore first written over the
    converter [xml] stored in the xml slot; [xmlFormat] never reaches that
    slot (it asks for the string or the base64 format), which
    [xmlFormat_unfold] states. *)

Record headerFormatFunc_s : Type := mk_headerFormatFunc {
  fmt : option rpmtdFormats;      (* [None] is the -1 of the last entry *)
  name : option string;
  func : option converter
}.

Definition rpmHeaderFormats_with (xml : converter) : list headerFormatFunc_s :=
  [ mk_headerFormatFunc (Some RPMTD_FORMAT_STRING) (Some "string") (Some stringFormat);
    mk_headerFormatFunc (Some RPMTD_FORMAT_ARMOR) (Some "armor") (Some armorFormat);
    mk_headerFormatFunc (Some RPMTD_FORMAT_BASE64) (Some "base64") (Some base64Format);
    mk_headerFormatFunc (Some RPMTD_FORMAT_PGPSIG) (Some "pgpsig") (Some pgpsigFormat);
    mk_headerFormatFunc (Some RPMTD_FORMAT_DEPFLAGS) (Some "depflags") (Some depflagsFormat);
    mk_headerFormatFunc (Some RPMTD_FORMAT_FFLAGS) (Some "fflags") (Some fflagsFormat);
    mk_headerFormatFunc (Some RPMTD_FORMAT_PERMS) (Some "perms") (Some permsFormat);
    mk_headerFormatFunc (Some RPMTD_FORMAT_PERMS) (Some "permissions") (Some permsFormat);
    mk_headerFormatFunc (Some RPMTD_FORMAT_TRIGGERTYPE) (Some "triggertype") (Some triggertypeFormat);
    mk_headerFormatFunc (Some RPMTD_FORMAT_XML) (Some "xml") (Some xml);
    mk_headerFormatFunc (Some RPMTD_FORMAT_OCTAL) (Some "octal") (Some octalFormat);
    mk_headerFormatFunc (Some RPMTD_FORMAT_HEX) (Some "hex") (Some hexFormat);
    mk_headerFormatFunc (Some RPMTD_FORMAT_DATE) (Some "date") (Some dateFormat);
    mk_headerFormatFunc (Some RPMTD_FORMAT_DAY) (Some "day") (Some dayFormat);
    mk_headerFormatFunc (Some RPMTD_FORMAT_SHESCAPE) (Some "shescape") (Some shescapeFormat);
    mk_headerFormatFunc (Some RPMTD_FORMAT_ARRAYSIZE) (Some "arraysize") (Some arraysizeFormat);
    mk_headerFormatFunc None None None ].

(** [for (ext = rpmHeaderFormats; ext->name != NULL; ext++)
      if (!strcmp(ext->name, fmt)) { func = ext->func; break; }] *)
Fixpoint scan_by_name (ext : list headerFormatFunc_s) (fmt_name : string)
  : option converter :=
  match ext with
  | [] => None
  | e :: ext' =>
      match name e with
      | None => None
      | Some n => if String.eqb n fmt_name then func e else scan_by_name ext' fmt_name
      end
  end.

Definition fmt_code_eqb (a : rpmtdFormats) (b : option rpmtdFormats) : bool :=
  match b with
  | Some b => rpmtdFormats_eqb a b
  | None => false
  end.

(** [for (ext = rpmHeaderFormats; ext->name != NULL; ext++)
      if (fmt == ext->fmt) { func = ext->func; break; }] *)
Fixpoint scan_by_value (ext : list headerFormatFunc_s) (code : rpmtdFormats)
  : option converter :=
  match ext with
  | [] => None
  | e :: ext' =>
      match name e with
      | None => None
      | Some _ => if fmt_code_eqb code (fmt e) then func e else scan_by_value ext' code
      end
  end.

(** Modelled from the spec: [rpmtdFormat] of lib/rpmtd.c, which is not part
    of the sources at hand.  It resolves the converter by its code and
    calls it on a template of its own that holds ["%"]; without a
    converter it returns [NULL]. *)
Definition rpmtdFormat_with (xml : converter) (td : rpmtd) (code : rpmtdFormats)
  : outcome :=
  match scan_by_value (rpmHeaderFormats_with xml) code with
  | Some f => f td "%"
  | None => Ret None "%"
  end.

Definition TAB : string := String (ascii_of_nat 9) "".

(** [rstrcat(&dest, src)] *)
Definition rstrcat (dest src : string) : string := dest ++ src.

(** [rstrscat(NULL, arg, ..., NULL)] *)
Definition rstrscat (args : list string) : string := String.concat "" args.

(** The loop of [xmlFormat] over the characters of [s], appending to
    [new_s]. *)
Fixpoint xml_escape_loop (s new_s : string) : string :=
  match s with
  | EmptyString => new_s
  | String c s' =>
      let new_s :=
        if Ascii.eqb c "<" then rstrcat new_s "&lt;"
        else if Ascii.eqb c ">" then rstrcat new_s "&gt;"
        else if Ascii.eqb c "&" then rstrcat new_s "&amp;"
        else rstrcat new_s (String c "") in
      xml_escape_loop s' new_s
  end.

Definition xmlFormat_with (xml : converter) (td : rpmtd) (formatPrefix : string)
  : outcome :=
  let class :=
    match rpmtdType td with
    | RPM_I18NSTRING_TYPE | RPM_STRING_TYPE | RPM_STRING_ARRAY_TYPE =>
        Some ("string", RPMTD_FORMAT_STRING)
    | RPM_BIN_TYPE => Some ("base64", RPMTD_FORMAT_BASE64)
    | RPM_CHAR_TYPE | RPM_INT8_TYPE | RPM_INT16_TYPE | RPM_INT32_TYPE =>
        Some ("integer", RPMTD_FORMAT_STRING)
    | _ => None
    end in
  match class with
  | None => Ret (Some (xstrdup (gettext "(invalid xml type)"))) formatPrefix
  | Some (xtag, code) =>
      match rpmtdFormat_with xml td code with
      | Fault => Fault
      | Ret s _ =>
          deref s (fun s =>
            let val :=
              match s with
              | EmptyString => rstrscat [TAB ++ "<"; xtag; "/>"]
              | _ =>
                  let new_s := xml_escape_loop s "" in
                  rstrscat [TAB ++ "<"; xtag; ">"; new_s; "</"; xtag; ">"]
              end in
            let formatPrefix := strcat formatPrefix "s" in
            Ret (Some val) formatPrefix)
      end
  end.

Definition xmlFormat : converter := xmlFormat_with (fun _ _ => Fault).

Definition rpmHeaderFormats : list headerFormatFunc_s :=
  rpmHeaderFormats_with xmlFormat.

Definition rpmHeaderFormatFuncByName (fmt_name : string) : option converter :=
  scan_by_name rpmHeaderFormats fmt_name.

Definition rpmHeaderFormatFuncByValue (code : rpmtdFormats) : option converter :=
  scan_by_value rpmHeaderFormats code.

Definition rpmtdFormat (td : rpmtd) (code : rpmtdFormats) : outcome :=
  rpmtdFormat_with xmlFormat td code.

End Converters.

(** ** Laws of the environment

    What the statements below ask of the environment, each where it needs
    it. *)

(** The message catalogue holds no translation (the C locale). *)
Definition untranslated `{Env} : Prop :=
  forall msg : string, gettext msg = msg.

(** A bare [%s] writes its argument as it is. *)
Definition printf_plain_s `{Env} : Prop :=
  forall s : string, rasprintf "%s" (Arg_str s) = s.

(** A 32-bit pattern read as an [int]. *)
Definition int32_of (n : Z) : Z :=
  let n := n mod 2 ^ 32 in if n <? 2 ^ 31 then n else n - 2 ^ 32.

(** A bare [%d] writes the decimal numeral of its argument read as an
    [int]. *)
Definition printf_plain_d `{Env} : Prop :=
  forall n : Z, rasprintf "%d" (Arg_int n) = itoa (int32_of n).

(** The flag [a] has a bit, and none in common with the [others]. *)
Definition disjoint_from (a : Z) (others : list Z) : Prop :=
  a <> 0 /\ Forall (fun b => Z.land a b = 0) others.

(** Among the eight file flags, DOC and GHOST are bits of their own. *)
Definition file_flags_distinct `{Env} : Prop :=
  disjoint_from RPMFILE_DOC
    [RPMFILE_CONFIG; RPMFILE_SPECFILE; RPMFILE_MISSINGOK; RPMFILE_NOREPLACE;
     RPMFILE_GHOST; RPMFILE_LICENSE; RPMFILE_README] /\
  disjoint_from RPMFILE_GHOST
    [RPMFILE_CONFIG; RPMFILE_SPECFILE; RPMFILE_MISSINGOK; RPMFILE_NOREPLACE;
     RPMFILE_DOC; RPMFILE_LICENSE; RPMFILE_README].

(** ** A concrete environment: glibc, the C locale, UTC

    An executable environment on which the converters run, used to
    exercise the definitions and the statements on concrete inputs. *)

Module CLocale.

Fixpoint repeat_char (c : ascii) (n : nat) : string :=
  match n with
  | O => ""
  | S n' => String c (repeat_char c n')
  end.

Definition pad_left (c : ascii) (width : nat) (s : string) : string :=
  repeat_char c (width - strlen s) ++ s.

Definition pad_right (c : ascii) (width : nat) (s : string) : string :=
  s ++ repeat_char c (width - strlen s).

(** *** [printf] with one directive *)

Record directive : Type := mk_directive {
  d_minus : bool; d_plus : bool; d_space : bool; d_hash : bool; d_zero : bool;
  d_width : nat;
  d_prec : option nat;
  d_long : bool;
  d_conv : ascii
}.

Fixpoint parse_flags (s : string) (d : directive) : directive * string :=
  match s with
  | String c s' =>
      if Ascii.eqb c "-" then
        parse_flags s' (mk_directive true (d_plus d) (d_space d) (d_hash d)
                          (d_zero d) 0 None false " ")
      else if Ascii.eqb c "+" then
        parse_flags s' (mk_directive (d_minus d) true (d_space d) (d_hash d)
                          (d_zero d) 0 None false " ")
      else if Ascii.eqb c " " then
        parse_flags s' (mk_directive (d_minus d) (d_plus d) true (d_hash d)
                          (d_zero d) 0 None false " ")
      else if Ascii.eqb c "#" then
        parse_flags s' (mk_directive (d_minus d) (d_plus d) (d_space d) true
                          (d_zero d) 0 None false " ")
      else if Ascii.eqb c "0" then
        parse_flags s' (mk_directive (d_minus d) (d_plus d) (d_space d)
                          (d_hash d) true 0 None false " ")
      else (d, s)
  | EmptyString => (d, s)
  end.

Definition is_digit (c : ascii) : bool :=
  (48 <=? nat_of_ascii c)%nat && (nat_of_ascii c <=? 57)%nat.

Fixpoint parse_number (s : string) (acc : nat) : nat * string :=
  match s with
  | String c s' =>
      if is_digit c then parse_number s' (10 * acc + (nat_of_ascii c - 48))
      else (acc, s)
  | EmptyString => (acc, s)
  end.

Definition parse_precision (s : string) : option nat * string :=
  match s with
  | String "." s' => let (p, rest) := parse_number s' 0 in (Some p, rest)
  | _ => (None, s)
  end.

Fixpoint parse_length (s : string) (long : bool) : bool * string :=
  match s with
  | String c s' =>
      if Ascii.eqb c "l" then parse_length s' true
      else if Ascii.eqb c "h" then parse_length s' long
      else (long, s)
  | EmptyString => (long, s)
  end.

(** The directive of a template ["%" flags width .precision length conv],
    and the text after it. *)
Definition parse_directive (template : string) : option (directive * string) :=
  match template with
  | String "%" s =>
      let (d, s) := parse_flags s (mk_directive false false false false false
                                     0 None false " ") in
      let (width, s) := parse_number s 0 in
      let (prec, s) := parse_precision s in
      let (long, s) := parse_length s false in
      match s with
      | String conv rest =>
          Some (mk_directive (d_minus d) (d_plus d) (d_space d) (d_hash d)
                  (d_zero d) width prec long conv, rest)
      | EmptyString => None
      end
  | _ => None
  end.

Definition justify (d : directive) (sign digits : string) : string :=
  if d_minus d then pad_right " " (d_width d) (sign ++ digits)
  else if d_zero d && match d_prec d with None => true | Some _ => false end
  then sign ++ pad_left "0" (d_width d - strlen sign) digits
  else pad_left " " (d_width d) (sign ++ digits).

Definition digits_with_precision (d : directive) (base n : Z) : string :=
  match d_prec d with
  | Some O => if n =? 0 then "" else utoa base n
  | Some p => pad_left "0" p (utoa base n)
  | None => utoa base n
  end.

Definition arg_bits (long : bool) (a : printf_arg) : Z * Z :=
  match a with
  | Arg_int n => (n mod 2 ^ 32, 32)
  | Arg_int64 n => (n mod 2 ^ 64, 64)
  | Arg_str _ => (0, if long then 64 else 32)
  end.

Definition render (d : directive) (a : printf_arg) : string :=
  let conv := d_conv d in
  if Ascii.eqb conv "s" then
    let s := match a with Arg_str s => s | _ => "" end in
    let s := match d_prec d with Some p => substring 0 p s | None => s end in
    if d_minus d then pad_right " " (d_width d) s
    else pad_left " " (d_width d) s
  else
    let (u, bits) := arg_bits (d_long d) a in
    if Ascii.eqb conv "d" then
      let n := if u <? 2 ^ (bits - 1) then u else u - 2 ^ bits in
      let sign := if n <? 0 then "-" else if d_plus d then "+"
                  else if d_space d then " " else "" in
      justify d sign (digits_with_precision d 10 (Z.abs n))
    else if Ascii.eqb conv "u" then
      justify d "" (digits_with_precision d 10 u)
    else if Ascii.eqb conv "o" then
      let digits := digits_with_precision d 8 u in
      let digits := if d_hash d && negb (prefix "0" digits)
                    then "0" ++ digits else digits in
      justify d "" digits
    else if Ascii.eqb conv "x" then
      justify d (if d_hash d && negb (u =? 0) then "0x" else "")
              (digits_with_precision d 16 u)
    else "".

Definition rasprintf (template : string) (a : printf_arg) : string :=
  match parse_directive template with
  | Some (d, rest) => render d a ++ rest
  | None => template
  end.

(** *** Calendar time: UTC, proleptic Gregorian *)

Definition localtime (t : Z) : option tm :=
  let days := t / 86400 in
  let rem := t mod 86400 in
  let z := days + 719468 in
  let era := z / 146097 in
  let doe := z - era * 146097 in
  let yoe := (doe - doe / 1460 + doe / 36524 - doe / 146096) / 365 in
  let doy := doe - (365 * yoe + yoe / 4 - yoe / 100) in
  let mp := (5 * doy + 2) / 153 in
  let mday := doy - (153 * mp + 2) / 5 + 1 in
  let mon := if mp <? 10 then mp + 3 else mp - 9 in
  let year := yoe + era * 400 + (if mon <=? 2 then 1 else 0) in
  Some (mk_tm (rem mod 60) (rem / 60 mod 60) (rem / 3600)
              mday (mon - 1) (year - 1900) ((days + 4) mod 7)).

Definition day_names : list string :=
  ["Sunday"; "Monday"; "Tuesday"; "Wednesday"; "Thursday"; "Friday"; "Saturday"].

Definition month_names : list string :=
  ["January"; "February"; "March"; "April"; "May"; "June"; "July"; "August";
   "September"; "October"; "November"; "December"].

Definition two_digits (pad : ascii) (n : Z) : string := pad_left pad 2 (utoa 10 n).

Definition conversion (c : ascii) (t : tm) : string :=
  if Ascii.eqb c "A" then nth (Z.to_nat (tm_wday t)) day_names "?"
  else if Ascii.eqb c "a" then
    substring 0 3 (nth (Z.to_nat (tm_wday t)) day_names "?")
  else if Ascii.eqb c "B" then nth (Z.to_nat (tm_mon t)) month_names "?"
  else if Ascii.eqb c "b" then
    substring 0 3 (nth (Z.to_nat (tm_mon t)) month_names "?")
  else if Ascii.eqb c "d" then two_digits "0" (tm_mday t)
  else if Ascii.eqb c "e" then two_digits " " (tm_mday t)
  else if Ascii.eqb c "H" then two_digits "0" (tm_hour t)
  else if Ascii.eqb c "M" then two_digits "0" (tm_min t)
  else if Ascii.eqb c "S" then two_digits "0" (tm_sec t)
  else if Ascii.eqb c "Y" then itoa (tm_year t + 1900)
  else if Ascii.eqb c "%" then "%"
  else "".

Fixpoint strftime_simple (format : string) (t : tm) : string :=
  match format with
  | String "%" (String c rest) => conversion c t ++ strftime_simple rest t
  | String c rest => String c (strftime_simple rest t)
  | EmptyString => ""
  end.

(** [%c] stands for the date and time format [d_t_fmt] of the locale. *)
Fixpoint strftime_full (d_t_fmt : string) (format : string) (t : tm) : string :=
  match format with
  | String "%" (String c rest) =>
      (if Ascii.eqb c "c" then strftime_simple d_t_fmt t else conversion c t)
      ++ strftime_full d_t_fmt rest t
  | String c rest => String c (strftime_full d_t_fmt rest t)
  | EmptyString => ""
  end.

(** The date and time format of the C locale. *)
Definition d_t_fmt_C : string := "%a %b %e %H:%M:%S %Y".

(** glibc sizes the expansion of [%c] before it writes any of it: a
    result that does not fit leaves the array as it was, and both callers
    have a NUL at its start. *)
Definition strftime_overflow (max : nat) (format : string) (t : tm) : string := "".

(** *** base64 and ASCII armor *)

Definition b64_alphabet : string :=
  "ABCDEFGHIJKLMNOPQRSTUVWXYZabcdefghijklmnopqrstuvwxyz0123456789+/".

Definition b64_char (n : Z) : string :=
  match String.get (Z.to_nat (n mod 64)) b64_alphabet with
  | Some c => String c ""
  | None => ""
  end.

Fixpoint b64_groups (data : list Z) : string :=
  match data with
  | a :: b :: c :: rest =>
      let n := a * 65536 + b * 256 + c in
      b64_char (n / 262144) ++ b64_char (n / 4096) ++ b64_char (n / 64) ++
      b64_char n ++ b64_groups rest
  | [a; b] =>
      let n := a * 65536 + b * 256 in
      b64_char (n / 262144) ++ b64_char (n / 4096) ++ b64_char (n / 64) ++ "="
  | [a] =>
      let n := a * 65536 in
      b64_char (n / 262144) ++ b64_char (n / 4096) ++ "=="
  | [] => ""
  end.

(** A [NULL] data pointer is refused; line breaks are left out. *)
Definition b64encode (data : option (list Z)) (len : Z) : option string :=
  match data with
  | Some bytes => Some (b64_groups (firstn (Z.to_nat len) bytes))
  | None => None
  end.

Definition b64_value (c : ascii) : option Z :=
  option_map Z.of_nat (index 0 (String c "") b64_alphabet).

Fixpoint b64_values (enc : string) : option (list Z) :=
  match enc with
  | EmptyString => Some []
  | String c enc' =>
      if Ascii.eqb c "=" then Some []
      else
        match b64_value c, b64_values enc' with
        | Some v, Some vs => Some (v :: vs)
        | _, _ => None
        end
  end.

Fixpoint b64_bytes (vs : list Z) : option (list Z) :=
  match vs with
  | a :: b :: c :: d :: rest =>
      let n := a * 262144 + b * 4096 + c * 64 + d in
      option_map (fun tl => n / 65536 :: n / 256 mod 256 :: n mod 256 :: tl)
                 (b64_bytes rest)
  | [a; b; c] =>
      let n := a * 262144 + b * 4096 + c * 64 in
      Some [n / 65536; n / 256 mod 256]
  | [a; b] => Some [(a * 262144 + b * 4096) / 65536]
  | [_] => None
  | [] => Some []
  end.

Definition b64decode (enc : string) : option (list Z) :=
  match b64_values enc with
  | Some vs => b64_bytes vs
  | None => None
  end.

Definition NL : string := String (ascii_of_nat 10) "".

Definition PGPARMOR_PUBKEY : Z := 2.
Definition PGPARMOR_SIGNATURE : Z := 3.

(** The armor block, without its checksum line. *)
Definition pgpArmorWrap (atype : Z) (s : list Z) : string :=
  let kind := if atype =? PGPARMOR_SIGNATURE then "SIGNATURE"
              else "PUBLIC KEY BLOCK" in
  "-----BEGIN PGP " ++ kind ++ "-----" ++ NL ++ NL ++
  b64_groups s ++ NL ++ "-----END PGP " ++ kind ++ "-----" ++ NL.

(** *** File modes *)

Definition mode_char (mode bit : Z) (c : string) : string :=
  if nonzero (Z.land mode bit) then c else "-".

Definition exec_char (mode exec special : Z) (set unset : string) : string :=
  if nonzero (Z.land mode special)
  then (if nonzero (Z.land mode exec) then set else unset)
  else mode_char mode exec "x".

Definition rpmPermsString (mode : Z) : string :=
  let kind := Z.land mode 61440 in
  (if kind =? 32768 then "-" else if kind =? 16384 then "d"
   else if kind =? 40960 then "l" else if kind =? 4096 then "p"
   else if kind =? 49152 then "s" else if kind =? 8192 then "c"
   else if kind =? 24576 then "b" else "?") ++
  mode_char mode 256 "r" ++ mode_char mode 128 "w" ++
  exec_char mode 64 2048 "s" "S" ++
  mode_char mode 32 "r" ++ mode_char mode 16 "w" ++
  exec_char mode 8 1024 "s" "S" ++
  mode_char mode 4 "r" ++ mode_char mode 2 "w" ++
  exec_char mode 1 512 "t" "T".

(** *** OpenPGP packets *)

(** A new-format body length: one, two or five bytes. *)
Definition pgpLen (s : list Z) : option (Z * Z) :=
  match s with
  | a :: rest =>
      if a <? 192 then Some (1, a)
      else if a <? 255 then
        match rest with
        | b :: _ => Some (2, (a - 192) * 256 + b + 192)
        | [] => None
        end
      else if readable rest 4 then Some (5, pgpGrab rest 4) else None
  | [] => None
  end.

Definition no_signature : pgpDigParams :=
  mk_pgpDigParams 0 0 [0; 0; 0; 0] [0; 0; 0; 0; 0; 0; 0; 0].

(** The parameters of a version 3 signature packet: version, the length 5
    of the hashed material, signature type, creation time, key id, public
    key algorithm, hash algorithm.  Anything else leaves the zeroed
    parameters. *)
Definition pgpPrtPkts (pkt : list Z) (pktlen : Z) : pgpDigParams :=
  match pkt with
  | v :: rest =>
      let hdr :=
        if nonzero (Z.land v 64)
        then match pgpLen rest with Some (plen, _) => plen | None => 0 end
        else Z.shiftl 1 (Z.land v 3) in
      match skipn (Z.to_nat hdr) rest with
      | 3 :: 5 :: _ :: t0 :: t1 :: t2 :: t3 ::
        k0 :: k1 :: k2 :: k3 :: k4 :: k5 :: k6 :: k7 :: pubkey :: hash :: _ =>
          if (Z.of_nat (List.length pkt) <? pktlen) then no_signature
          else mk_pgpDigParams pubkey hash [t0; t1; t2; t3]
                               [k0; k1; k2; k3; k4; k5; k6; k7]
      | _ => no_signature
      end
  | [] => no_signature
  end.

(** *** The environment *)

(** The environment with the message catalogue [catalogue], a locale whose
    date and time format is [d_t_fmt], and the base64 encoder [encode]. *)
Definition env_with (catalogue : string -> string) (d_t_fmt : string)
    (encode : option (list Z) -> Z -> option string) : Env :=
  Build_Env
    (* PRIu8, PRIu16, PRIu32, PRIu64 *) "u" "u" "u" "lu"
    catalogue rasprintf
    localtime (strftime_full d_t_fmt) strftime_overflow
    rpmPermsString
    (* RPMFILE_CONFIG, _DOC, _MISSINGOK, _NOREPLACE *) 1 2 8 16
    (* RPMFILE_SPECFILE, _GHOST, _LICENSE, _README *) 32 64 128 256
    (* RPMSENSE_LESS, _GREATER, _EQUAL *) 2 4 8
    (* RPMSENSE_TRIGGERIN, _TRIGGERUN, _TRIGGERPOSTUN, _TRIGGERPREIN *)
    65536 131072 262144 33554432
    encode b64decode
    PGPARMOR_SIGNATURE PGPARMOR_PUBKEY
    (* PGPTAG_SIGNATURE *) 2
    (* PGPPUBKEYALGO_RSA, PGPPUBKEYALGO_DSA *) 1 17
    (* PGPHASHALGO_MD5, PGPHASHALGO_SHA1 *) 1 2
    pgpArmorWrap pgpLen pgpPrtPkts.

(** glibc in the C locale. *)
Definition env : Env := env_with (fun msg => msg) d_t_fmt_C b64encode.

End CLocale.

(** ** Sample containers *)

Definition td_int32 (n : Z) : rpmtd :=
  mk_rpmtd RPM_INT32_TYPE 1 (Data_ints [n]) 0.


Definition td_string (s : string) : rpmtd :=
  mk_rpmtd RPM_STRING_TYPE 1 (Data_string s) 0.

Definition td_binary (bytes : list Z) : rpmtd :=
  mk_rpmtd RPM_BIN_TYPE (Z.of_nat (List.length bytes)) (Data_bytes bytes) 0.

(** An old-format signature packet (tag 2, one length byte, 19 bytes of
    body) holding a version 3 signature: created at 1234567890, key id
    01020304050607ab, DSA (17) with SHA1 (2). *)
Definition dsa_sha1_packet : list Z :=
  [136; 19; 3; 5; 0; 73; 150; 2; 210; 1; 2; 3; 4; 5; 6; 7; 171; 17; 2; 9; 9].

(** ** More environments

    Variations of the concrete environment that the statements below are
    exercised on. *)

(** glibc in the C locale, with a base64 encoder that cannot allocate its
    result. *)
Definition env_no_memory : Env :=
  CLocale.env_with (fun msg => msg) CLocale.d_t_fmt_C (fun _ _ => None).

(** A locale that spells its dates out: the date and time format has more
    than ninety bytes once expanded. *)
Definition d_t_fmt_verbose : string :=
  "%A, day %d of the month of %B in the year %Y, at %H hours, %M minutes and %S seconds".

(** glibc with that locale. *)
Definition env_verbose_dates : Env :=
  CLocale.env_with (fun msg => msg) d_t_fmt_verbose CLocale.b64encode.

(** A locale whose expanded format has between 66 and 89 bytes. *)
Definition d_t_fmt_long : string :=
  "%A, day %d of %B in the year %Y, at %H hours and %M minutes".

(** glibc with that locale. *)
Definition env_long_dates : Env :=
  CLocale.env_with (fun msg => msg) d_t_fmt_long CLocale.b64encode.

(** ** The notions the statements are made of *)

(** The converters that ask for a number, by the name the registry gives
    them. *)
Definition number_formats : list string :=
  ["octal"; "hex"; "date"; "day"; "perms"; "triggertype"; "depflags"; "fflags"].

(** The kinds that hold strings. *)
Definition string_kind (t : rpmTagType) : Prop :=
  t = RPM_STRING_TYPE \/ t = RPM_STRING_ARRAY_TYPE \/ t = RPM_I18NSTRING_TYPE.

(** One letter for each flag of [letters] that is set in [anint], in the
    order of [letters]. *)
Definition letters_of (letters : list (Z * string)) (anint : Z) : string :=
  String.concat ""
    (map snd (filter (fun fl => nonzero (Z.land anint (fst fl))) letters)).

(** The escaping as the specification words it: each [<], [>] and [&] is
    replaced, every other character stays. *)
Definition xml_escape_char (c : ascii) : string :=
  if Ascii.eqb c "<" then "&lt;"
  else if Ascii.eqb c ">" then "&gt;"
  else if Ascii.eqb c "&" then "&amp;"
  else String c "".

Definition xml_escape (s : string) : string :=
  String.concat "" (map xml_escape_char (list_ascii_of_string s)).

(** The quoting as the specification words it: the string between single
    quotes, each single quote of its own turned into the four characters
    quote, backslash, quote, quote. *)
Definition sh_escape_char (c : ascii) : string :=
  if Ascii.eqb c "'" then "'\''" else String c "".

(** The whole literal. *)
Definition sh_quote (s : string) : string :=
  "'" ++ String.concat "" (map sh_escape_char (list_ascii_of_string s)) ++ "'".

(** A letter or a digit of ASCII. *)
Definition is_plain (c : ascii) : bool :=
  let n := nat_of_ascii c in
  ((48 <=? n) && (n <=? 57) || (65 <=? n) && (n <=? 90)
   || (97 <=? n) && (n <=? 122))%nat.

(** How a POSIX shell reads a word made of quoted and unquoted parts.
    Between single quotes every character stands for itself up to the
    closing quote.  Outside, a single quote opens a quoted part, a
    backslash makes the next character stand for itself, and letters and
    digits stand for themselves; a word with anything else unquoted, or
    with a quote left open, is not read here. *)
Fixpoint sh_read (quoted : bool) (word : string) : option string :=
  match word with
  | EmptyString => if quoted then None else Some ""
  | String c word' =>
      if quoted then
        if Ascii.eqb c "'" then sh_read false word'
        else option_map (String c) (sh_read true word')
      else if Ascii.eqb c "'" then sh_read true word'
      else if Ascii.eqb c "\" then
        match word' with
        | String c' word'' => option_map (String c') (sh_read false word'')
        | EmptyString => None
        end
      else if is_plain c then option_map (String c) (sh_read false word')
      else None
  end.

Definition sh_eval (word : string) : option string := sh_read false word.

(** The length of an old-format packet that starts with the byte [v]
    followed by [rest]: the first byte, the length field and the body. *)
Definition old_format_pktlen (v : Z) (rest : list Z) : Z :=
  1 + 2 ^ Z.land v 3 + pgpGrab rest (Z.to_nat (2 ^ Z.land v 3)).

(** The kinds the xml converter has a tag for: all but Null and Int64. *)
Definition xml_kind (t : rpmTagType) : bool :=
  match t with
  | RPM_NULL_TYPE | RPM_INT64_TYPE => false
  | _ => true
  end.

(** The template as the xml converter leaves it. *)
Definition xml_template (td : rpmtd) (formatPrefix : string) : string :=
  if xml_kind (rpmtdType td) then formatPrefix ++ "s" else formatPrefix.

Section Notions.
Context `{E : Env}.

(** The entry [e] bears the name [n]. *)
Definition named (e : headerFormatFunc_s) (n : string) : Prop := name e = Some n.

(** The flags and their letters, in the order the specification lists
    them. *)
Definition fflags_letters : list (Z * string) :=
  [ (RPMFILE_DOC, "d"); (RPMFILE_CONFIG, "c"); (RPMFILE_SPECFILE, "s");
    (RPMFILE_MISSINGOK, "m"); (RPMFILE_NOREPLACE, "n"); (RPMFILE_GHOST, "g");
    (RPMFILE_LICENSE, "l"); (RPMFILE_README, "r") ].

(** The first byte [v] announces an old-format packet with the tag of a
    signature, and the length field it selects lies within the data
    [rest] that follows it. *)
Definition old_format_signature (v : Z) (rest : list Z) : Prop :=
  Z.testbit v 7 = true /\ Z.testbit v 6 = false /\
  Z.land (Z.shiftr v 2) 15 = PGPTAG_SIGNATURE /\
  (Nat.min (Z.to_nat (2 ^ Z.land v 3)) 4 <= List.length rest)%nat.

(** The summary up to the date. *)
Definition pgpsig_before_date (sigp : pgpDigParams) : string :=
  ((pubkey_algo_name sigp ++ "/") ++ hash_algo_name sigp) ++ ", ".

(** With a buffer of [nb + 1] bytes the date is in good hands: either it
    fits in what is left of the buffer, or the string a failed [strftime]
    leaves behind is long enough to fail the slack test that follows. *)
Definition date_ready (sigp : pgpDigParams) (nb : nat) : Prop :=
  match localtime (pgpGrab (time sigp) sizeof_time) with
  | Some tstruct =>
      let room := (nb - strlen (pgpsig_before_date sigp))%nat in
      (strlen (strftime_full "%c" tstruct) < room)%nat \/
      (room <= strlen (strftime_overflow room "%c" tstruct) + 10)%nat
  | None => True
  end.

(** A failed [strftime] leaves all but at most ten bytes of the room it
    had filled, as an implementation that truncates does. *)
Definition strftime_overflow_fills : Prop :=
  forall (max : nat) (format : string) (tstruct : tm),
    (max <= strlen (strftime_overflow max format tstruct) + 10)%nat.

(** The conversion specifiers the converters append. *)
Definition conversion_specifiers : list string :=
  [PRIu8; PRIu16; PRIu32; PRIu64; "s"; "o"; "x"; "d"; "u"].

(** [val] is what [rasprintf] writes for [template] and some argument,
    as it is or quoted for the shell. *)
Inductive rendered_with (template : string) : string -> Prop :=
| rendered_plain (arg : printf_arg) :
    rendered_with template (rasprintf template arg)
| rendered_quoted (arg : printf_arg) :
    rendered_with template
      (String "'" (shescape_copy (rasprintf template arg) ++ "'")).

(** The call appends one conversion specifier to the template it was
    given and returns what the template renders then. *)
Definition appends_and_renders (f : converter) (td : rpmtd)
    (formatPrefix : string) : Prop :=
  exists spec val : string,
    In spec conversion_specifiers /\
    f td formatPrefix = Ret (Some val) (formatPrefix ++ spec) /\
    rendered_with (formatPrefix ++ spec) val.

(** The converters that work through the template, by name. *)
Definition template_formats : list string :=
  ["string"; "octal"; "hex"; "date"; "day"; "shescape"; "perms"; "fflags";
   "depflags"; "arraysize"; "base64"].

(** The converters that never look at the template. *)
Definition fixed_formats : list string := ["armor"; "pgpsig"; "triggertype"].

Definition has_uint32 (td : rpmtd) : Prop := exists n, rpmtdGetUint32 td = Some n.
Definition has_string (td : rpmtd) : Prop := exists s, rpmtdGetString td = Some s.

(** The values a converter accepts: those that hold what it reads. *)
Definition accepts (fmt_name : string) (td : rpmtd) : Prop :=
  if String.eqb fmt_name "string" then
    (exists n, rpmtdGetChar td = Some n) \/
    (exists n, rpmtdGetUint16 td = Some n) \/
    has_uint32 td \/
    (exists n, rpmtdGetUint64 td = Some n) \/
    has_string td \/
    (rpmtdType td = RPM_BIN_TYPE /\ exists data, td_blob td = Some data)
  else if String.eqb fmt_name "shescape" then has_uint32 td \/ has_string td
  else if String.eqb fmt_name "arraysize" then True
  else if String.eqb fmt_name "base64" then
    rpmtdType td = RPM_BIN_TYPE /\
    exists enc, b64encode (td_bytes td) (td_count td) = Some enc
  else has_uint32 td.

End Notions.

(** ** Notions for the further properties *)

(** The reading of escaped text: the three entities give their character
    back, everything else stands for itself. *)
Fixpoint xml_unescape (w : string) : string :=
  match w with
  | EmptyString => ""
  | String c w1 =>
      if Ascii.eqb c "&" then
        match w1 with
        | String a (String b (String d w4)) =>
            if Ascii.eqb a "l" && Ascii.eqb b "t" && Ascii.eqb d ";"
            then String "<" (xml_unescape w4)
            else if Ascii.eqb a "g" && Ascii.eqb b "t" && Ascii.eqb d ";"
            then String ">" (xml_unescape w4)
            else
              match w4 with
              | String e w5 =>
                  if Ascii.eqb a "a" && Ascii.eqb b "m" && Ascii.eqb d "p"
                     && Ascii.eqb e ";"
                  then String "&" (xml_unescape w5)
                  else String c (xml_unescape w1)
              | EmptyString => String c (xml_unescape w1)
              end
        | _ => String c (xml_unescape w1)
        end
      else String c (xml_unescape w1)
  end.

(** The character [c] occurs in [s]. *)
Fixpoint occurs (c : ascii) (s : string) : bool :=
  match s with
  | EmptyString => false
  | String c' s' => Ascii.eqb c c' || occurs c s'
  end.


(** The name of the first flag of [names] that is set in [item], the
    empty string when none is. *)
Definition first_name_of (names : list (Z * string)) (item : Z) : string :=
  match find (fun fl => nonzero (Z.land item (fst fl))) names with
  | Some fl => snd fl
  | None => ""
  end.

Section MoreNotions.
Context `{E : Env}.

(** The trigger phases in the order [triggertypeFormat] tests them. *)
Definition trigger_names : list (Z * string) :=
  [ (RPMSENSE_TRIGGERPREIN, "prein"); (RPMSENSE_TRIGGERIN, "in");
    (RPMSENSE_TRIGGERUN, "un"); (RPMSENSE_TRIGGERPOSTUN, "postun") ].

(** The comparison flags and their signs in the order [depflagsFormat]
    tests them. *)
Definition depflags_letters : list (Z * string) :=
  [ (RPMSENSE_LESS, "<"); (RPMSENSE_GREATER, ">"); (RPMSENSE_EQUAL, "=") ].

(** The three comparison flags are bits of their own. *)
Definition sense_flags_distinct : Prop :=
  disjoint_from RPMSENSE_LESS [RPMSENSE_GREATER; RPMSENSE_EQUAL] /\
  disjoint_from RPMSENSE_GREATER [RPMSENSE_LESS; RPMSENSE_EQUAL] /\
  disjoint_from RPMSENSE_EQUAL [RPMSENSE_LESS; RPMSENSE_GREATER].

(** The names of the table with the converters they stand for. *)
Definition registered : list (string * converter) :=
  [ ("string", stringFormat); ("armor", armorFormat); ("base64", base64Format);
    ("pgpsig", pgpsigFormat); ("depflags", depflagsFormat);
    ("fflags", fflagsFormat); ("perms", permsFormat);
    ("permissions", permsFormat); ("triggertype", triggertypeFormat);
    ("xml", xmlFormat); ("octal", octalFormat); ("hex", hexFormat);
    ("date", dateFormat); ("day", dayFormat); ("shescape", shescapeFormat);
    ("arraysize", arraysizeFormat) ].

End MoreNotions.



(** * Properties *)

Lemma rpmTagType_eqb_eq (a b : rpmTagType) :
  rpmTagType_eqb a b = true <-> a = b.
Proof.
  split.
  - destruct a, b; simpl; intros H; try reflexivity; discriminate H.
  - intros ->. destruct b; reflexivity.
Qed.

Lemma rpmTagType_eqb_neq (a b : rpmTagType) :
  a <> b -> negb (rpmTagType_eqb a b) = true.
Proof.
  intros Hne. destruct (rpmTagType_eqb a b) eqn:Heq; [|reflexivity].
  apply rpmTagType_eqb_eq in Heq. contradiction.
Qed.

Section TypeMismatch.
Context `{E : Env}.

Lemma octalFormat_mismatch td formatPrefix :
  rpmtdType td <> RPM_INT32_TYPE ->
  octalFormat td formatPrefix = Ret (Some (gettext "(not a number)")) formatPrefix.
Proof. intros H. unfold octalFormat. now rewrite rpmTagType_eqb_neq. Qed.

Lemma hexFormat_mismatch td formatPrefix :
  rpmtdType td <> RPM_INT32_TYPE ->
  hexFormat td formatPrefix = Ret (Some (gettext "(not a number)")) formatPrefix.
Proof. intros H. unfold hexFormat. now rewrite rpmTagType_eqb_neq. Qed.

Lemma realDateFormat_mismatch td formatPrefix strftimeFormat :
  rpmtdType td <> RPM_INT32_TYPE ->
  realDateFormat td formatPrefix strftimeFormat
  = Ret (Some (gettext "(not a number)")) formatPrefix.
Proof. intros H. unfold realDateFormat. now rewrite rpmTagType_eqb_neq. Qed.

Lemma permsFormat_mismatch td formatPrefix :
  rpmtdType td <> RPM_INT32_TYPE ->
  permsFormat td formatPrefix = Ret (Some (gettext "(not a number)")) formatPrefix.
Proof. intros H. unfold permsFormat. now rewrite rpmTagType_eqb_neq. Qed.

Lemma triggertypeFormat_mismatch td formatPrefix :
  rpmtdType td <> RPM_INT32_TYPE ->
  triggertypeFormat td formatPrefix
  = Ret (Some (gettext "(not a number)")) formatPrefix.
Proof. intros H. unfold triggertypeFormat. now rewrite rpmTagType_eqb_neq. Qed.

Lemma depflagsFormat_mismatch td formatPrefix :
  rpmtdType td <> RPM_INT32_TYPE ->
  depflagsFormat td formatPrefix
  = Ret (Some (gettext "(not a number)")) formatPrefix.
Proof. intros H. unfold depflagsFormat. now rewrite rpmTagType_eqb_neq. Qed.

Lemma fflagsFormat_mismatch td formatPrefix :
  rpmtdType td <> RPM_INT32_TYPE ->
  fflagsFormat td formatPrefix
  = Ret (Some (gettext "(not a number)")) formatPrefix.
Proof. intros H. unfold fflagsFormat. now rewrite rpmTagType_eqb_neq. Qed.

Lemma pgpsigFormat_mismatch td formatPrefix :
  rpmtdType td <> RPM_BIN_TYPE ->
  pgpsigFormat td formatPrefix = Ret (Some (gettext "(not a blob)")) formatPrefix.
Proof. intros H. unfold pgpsigFormat. now rewrite rpmTagType_eqb_neq. Qed.

Lemma base64Format_mismatch td formatPrefix :
  rpmtdType td <> RPM_BIN_TYPE ->
  base64Format td formatPrefix = Ret (Some (gettext "(not a blob)")) formatPrefix.
Proof. intros H. unfold base64Format. now rewrite rpmTagType_eqb_neq. Qed.

(** C6.  For a container of any kind other than Int32, each of the octal,
    hex, date, day, perms, triggertype, depflags and fflags converters of
    the registry returns exactly "(not a number)" (the message catalogue
    holding no translation), and leaves the template as it was. *)
Theorem number_formats_reject_other_kinds
    (Hmsg : untranslated) (td : rpmtd) (formatPrefix fmt_name : string) :
  rpmtdType td <> RPM_INT32_TYPE ->
  In fmt_name number_formats ->
  exists f : converter,
    rpmHeaderFormatFuncByName fmt_name = Some f /\
    f td formatPrefix = Ret (Some "(not a number)") formatPrefix.
Proof.
  intros Hkind Hin.
  rewrite <- (Hmsg "(not a number)").
  unfold number_formats in Hin. simpl in Hin.
  repeat (destruct Hin as [<-|Hin]; [eexists; split; [reflexivity|] |]);
    try contradiction.
  - now apply octalFormat_mismatch.
  - now apply hexFormat_mismatch.
  - now apply realDateFormat_mismatch.
  - now apply realDateFormat_mismatch.
  - now apply permsFormat_mismatch.
  - now apply triggertypeFormat_mismatch.
  - now apply depflagsFormat_mismatch.
  - now apply fflagsFormat_mismatch.
Qed.

(** C10.  For a container of any kind other than Binary the pgpsig
    converter returns exactly "(not a blob)", the placeholder the base64
    converter returns for it too, and not "(not an OpenPGP signature)". *)
Theorem pgpsig_rejects_other_kinds
    (Hmsg : untranslated) (td : rpmtd) (formatPrefix : string) :
  rpmtdType td <> RPM_BIN_TYPE ->
  pgpsigFormat td formatPrefix = Ret (Some "(not a blob)") formatPrefix /\
  base64Format td formatPrefix = pgpsigFormat td formatPrefix /\
  pgpsigFormat td formatPrefix
  <> Ret (Some "(not an OpenPGP signature)") formatPrefix.
Proof.
  intros Hkind.
  rewrite pgpsigFormat_mismatch, base64Format_mismatch by assumption.
  rewrite Hmsg. repeat split. discriminate.
Qed.

End TypeMismatch.

(** ** The registry *)

Section Registry.
Context `{E : Env}.

(** [scan_by_name] stops at the first entry that bears the name: every
    entry before it has another name. *)
Lemma scan_by_name_first (table : list headerFormatFunc_s) (n : string)
    (f : converter) :
  scan_by_name table n = Some f ->
  exists before e after,
    table = (before ++ e :: after)%list /\
    named e n /\ func e = Some f /\
    Forall (fun e' => exists m, named e' m /\ m <> n) before.
Proof.
  induction table as [|e table IH]; simpl; [discriminate|].
  destruct (name e) as [m|] eqn:Hname; [|discriminate].
  destruct (String.eqb_spec m n) as [->|Hne].
  - intros Hf. exists [], e, table. repeat split; auto.
  - intros Hscan. destruct (IH Hscan) as (before & e' & after & -> & Hn & Hf & Hall).
    exists (e :: before), e', after. repeat split; auto.
    constructor; [|assumption]. exists m. split; [assumption|exact Hne].
Qed.

(** C9.  Lookup by name scans the table in its declared order and answers
    with the converter of the first entry that bears the name;
    "permissions" and "perms" name the same converter; a name that no
    entry bears, such as "nonexistent", gives no converter at all (not a
    converter, and so no string). *)
Theorem lookup_by_name_first_match :
  (forall (n : string) (f : converter),
      rpmHeaderFormatFuncByName n = Some f ->
      exists before e after,
        rpmHeaderFormats = (before ++ e :: after)%list /\
        named e n /\ func e = Some f /\
        Forall (fun e' => exists m, named e' m /\ m <> n) before) /\
  (forall n : string,
      rpmHeaderFormatFuncByName n = None <->
      ~ exists e, In e rpmHeaderFormats /\ named e n) /\
  rpmHeaderFormatFuncByName "permissions" = rpmHeaderFormatFuncByName "perms" /\
  rpmHeaderFormatFuncByName "perms" = Some permsFormat /\
  rpmHeaderFormatFuncByName "nonexistent" = None.
Proof.
  split; [|split; [|repeat split]].
  - intros n f. apply scan_by_name_first.
  - intros n. split.
    + intros Hnone (e & Hin & Hn).
      unfold rpmHeaderFormatFuncByName, rpmHeaderFormats, rpmHeaderFormats_with,
        named in *.
      simpl in Hin.
      repeat (destruct Hin as [<-|Hin];
              [simpl in Hn; inversion Hn; subst n; discriminate Hnone|]).
      contradiction.
    + intros Hno.
      destruct (rpmHeaderFormatFuncByName n) as [f|] eqn:Hscan; [|reflexivity].
      exfalso. apply Hno.
      destruct (scan_by_name_first _ _ _ Hscan) as (before & e & after & Heq & Hn & _).
      exists e. split; [|assumption].
      fold rpmHeaderFormats in Heq. rewrite Heq. apply in_elt.
Qed.

End Registry.

(** ** base64: a failed encoding *)

Section Base64.
Context `{E : Env}.

Lemma base64Format_encoding_fails (td : rpmtd) (formatPrefix : string) :
  rpmtdType td = RPM_BIN_TYPE ->
  b64encode (td_bytes td) (td_count td) = None ->
  base64Format td formatPrefix = Ret None formatPrefix.
Proof.
  intros Hkind Henc. unfold base64Format. rewrite Hkind, Henc. reflexivity.
Qed.

Lemma base64Format_encoded (td : rpmtd) (formatPrefix enc : string) :
  rpmtdType td = RPM_BIN_TYPE ->
  b64encode (td_bytes td) (td_count td) = Some enc ->
  base64Format td formatPrefix
  = Ret (Some (rasprintf (formatPrefix ++ "s") (Arg_str enc))) (formatPrefix ++ "s").
Proof.
  intros Hkind Henc. unfold base64Format. rewrite Hkind, Henc. reflexivity.
Qed.

End Base64.

(** C3.  The claim asks for a string from every converter on every value,
    from the base64 converter also when the encoder fails.  On a Binary
    value whose encoding fails, [base64Format] returns [NULL]: [val] is only
    assigned inside [if ((enc = b64encode(...)) != NULL)], where the
    fallback [enc ? enc : ""] can no longer apply.  The xml converter,
    which renders a Binary value through the base64 converter, then reads
    through that [NULL]. *)
Theorem base64_null_on_failed_encoding :
  @base64Format env_no_memory (td_binary [77; 97; 110]) "%" = Ret None "%" /\
  @xmlFormat env_no_memory (td_binary [77; 97; 110]) "%" = Fault.
Proof. split; reflexivity. Qed.

(** ** File flags *)

Section FileFlags.
Context `{E : Env}.

Lemma fflagsFormat_letters (td : rpmtd) (formatPrefix : string) (anint : Z) :
  rpmtdGetUint32 td = Some anint ->
  fflagsFormat td formatPrefix
  = Ret (Some (rasprintf (formatPrefix ++ "s")
                 (Arg_str (letters_of fflags_letters anint))))
        (formatPrefix ++ "s").
Proof.
  intros Hitem. unfold fflagsFormat.
  assert (Hkind : rpmtdType td = RPM_INT32_TYPE).
  { unfold rpmtdGetUint32 in Hitem. destruct (rpmtdType td); try discriminate.
    reflexivity. }
  rewrite Hkind, Hitem. simpl. unfold strcat.
  do 2 f_equal. f_equal. f_equal.
  unfold letters_of, fflags_letters, strcat_if, strcat. simpl.
  destruct (nonzero (Z.land anint RPMFILE_DOC));
  destruct (nonzero (Z.land anint RPMFILE_CONFIG));
  destruct (nonzero (Z.land anint RPMFILE_SPECFILE));
  destruct (nonzero (Z.land anint RPMFILE_MISSINGOK));
  destruct (nonzero (Z.land anint RPMFILE_NOREPLACE));
  destruct (nonzero (Z.land anint RPMFILE_GHOST));
  destruct (nonzero (Z.land anint RPMFILE_LICENSE));
  destruct (nonzero (Z.land anint RPMFILE_README)); reflexivity.
Qed.

Lemma nonzero_land_lor_absent (a b x : Z) :
  Z.land a x = 0 -> Z.land b x = 0 -> nonzero (Z.land (Z.lor a b) x) = false.
Proof.
  intros Ha Hb. rewrite Z.land_lor_distr_l, Ha, Hb. reflexivity.
Qed.

Lemma nonzero_true (a : Z) : a <> 0 -> nonzero a = true.
Proof.
  intros Ha. unfold nonzero. destruct (Z.eqb_spec a 0); [contradiction|reflexivity].
Qed.

(** C8, as the claim states it, fails: the letters go through the
    template of the caller, and a template with a precision of one cuts
    the letters of GHOST and DOC down to "d". *)
Lemma fflags_precision_cuts_the_letters :
  @fflagsFormat CLocale.env (td_int32 66) "%.1" = Ret (Some "d") "%.1s" /\
  @fflagsFormat CLocale.env (td_int32 66) "%.1" <> Ret (Some "dg") "%.1s".
Proof. split; [reflexivity|discriminate]. Qed.

(** C8, amended.  For an Int32 value and every template the fflags
    converter collects one letter for each flag that is set, in the fixed
    order d, c, s, m, n, g, l, r whatever the bits, and returns what the
    template of the caller, with [s] appended, renders for these letters.
    For a value with just the GHOST and DOC bits the letters are "dg" and
    never "gd".  With the bare template the result is the letters
    themselves: exactly "dg" for GHOST and DOC. *)
Theorem fflags_fixed_order
    (Hplain : printf_plain_s) (Hbits : file_flags_distinct)
    (td : rpmtd) (formatPrefix : string) (anint : Z) :
  rpmtdGetUint32 td = Some anint ->
  let buf := letters_of fflags_letters anint in
  fflagsFormat td formatPrefix
  = Ret (Some (rasprintf (formatPrefix ++ "s") (Arg_str buf)))
        (formatPrefix ++ "s") /\
  (anint = Z.lor RPMFILE_GHOST RPMFILE_DOC -> buf = "dg" /\ buf <> "gd") /\
  (formatPrefix = "%" -> fflagsFormat td formatPrefix = Ret (Some buf) "%s") /\
  (formatPrefix = "%" ->
   anint = Z.lor RPMFILE_GHOST RPMFILE_DOC ->
   fflagsFormat td formatPrefix = Ret (Some "dg") "%s" /\
   fflagsFormat td formatPrefix <> Ret (Some "gd") "%s").
Proof.
  intros Hitem buf.
  pose proof (fflagsFormat_letters td formatPrefix anint Hitem) as Hcall.
  fold buf in Hcall.
  assert (Hdg : anint = Z.lor RPMFILE_GHOST RPMFILE_DOC -> buf = "dg").
  { intros Hanint. subst buf. rewrite Hanint.
    destruct Hbits as [[Hdoc Hdoc_others] [Hghost Hghost_others]].
    repeat match goal with
           | H : Forall _ (_ :: _) |- _ => inversion H; clear H; subst
           end.
    cbv beta in *.
    unfold letters_of, fflags_letters. simpl.
    rewrite (nonzero_land_lor_absent RPMFILE_GHOST RPMFILE_DOC RPMFILE_CONFIG),
      (nonzero_land_lor_absent RPMFILE_GHOST RPMFILE_DOC RPMFILE_SPECFILE),
      (nonzero_land_lor_absent RPMFILE_GHOST RPMFILE_DOC RPMFILE_MISSINGOK),
      (nonzero_land_lor_absent RPMFILE_GHOST RPMFILE_DOC RPMFILE_NOREPLACE),
      (nonzero_land_lor_absent RPMFILE_GHOST RPMFILE_DOC RPMFILE_LICENSE),
      (nonzero_land_lor_absent RPMFILE_GHOST RPMFILE_DOC RPMFILE_README)
      by assumption.
    rewrite (nonzero_true (Z.land (Z.lor RPMFILE_GHOST RPMFILE_DOC) RPMFILE_DOC)).
    2:{ rewrite Z.land_lor_distr_l, Z.land_diag.
        replace (Z.land RPMFILE_GHOST RPMFILE_DOC) with 0 by (symmetry; assumption).
        simpl. assumption. }
    rewrite (nonzero_true (Z.land (Z.lor RPMFILE_GHOST RPMFILE_DOC) RPMFILE_GHOST)).
    2:{ rewrite Z.land_lor_distr_l, Z.land_diag.
        replace (Z.land RPMFILE_DOC RPMFILE_GHOST) with 0 by (symmetry; assumption).
        rewrite Z.lor_0_r. assumption. }
    reflexivity. }
  assert (Hbare : formatPrefix = "%" ->
                  fflagsFormat td formatPrefix = Ret (Some buf) "%s").
  { intros Hfmt. rewrite Hcall, Hfmt. simpl. rewrite Hplain. reflexivity. }
  split; [exact Hcall|]. split; [|split].
  - intros Hanint. rewrite (Hdg Hanint). split; [reflexivity|discriminate].
  - exact Hbare.
  - intros Hfmt Hanint. rewrite (Hbare Hfmt), (Hdg Hanint).
    split; [reflexivity|discriminate].
Qed.

End FileFlags.

(** ** The signature summary *)

Section Signature.
Context `{E : Env}.

(** What the loop returns is what one of its runs returned, with a buffer
    size the loop reaches from [nb]. *)
Lemma pgpsig_again_is_a_pass (sigp : pgpDigParams) (nb : nat) :
  exists restarts : nat,
    pgpsig_pass sigp (nb + 100 * S restarts) = Some (pgpsig_again sigp nb).
Proof.
  funelim (pgpsig_again sigp nb).
  - exists 0%nat.
    replace (nb + 100 * 1)%nat with (nb + 100)%nat by lia. assumption.
  - destruct H as [restarts Hpass]. exists (S restarts).
    replace (nb + 100 * S (S restarts))%nat
      with (nb + 100 + 100 * S restarts)%nat by lia.
    assumption.
Qed.

Lemma snprintf_d_cases (size : nat) (n : Z) :
  snprintf_d size n = itoa n \/ strlen (snprintf_d size n) = (size - 1)%nat.
Proof.
  unfold snprintf_d.
  destruct (Nat.le_gt_cases (strlen (itoa n)) (size - 1)) as [Hfit|Hcut].
  - left. now apply substring_whole.
  - right. rewrite substring_strlen. lia.
Qed.

(** A run that comes to its end with the date in good hands has written
    the whole summary: whatever [snprintf] cuts short fails the next slack
    test. *)
Lemma pgpsig_pass_sound (sigp : pgpDigParams) (nb : nat) (val : string) :
  date_ready sigp nb ->
  pgpsig_pass sigp nb = Some val ->
  val = pgpsig_single_pass sigp.
Proof.
  unfold date_ready, pgpsig_before_date, pgpsig_pass, pgpsig_single_pass,
    sig_date, pubkey_algo_name, hash_algo_name.
  set (k := pgpHexStr (signid sigp) sizeof_signid).
  set (dateint := pgpGrab (time sigp) sizeof_time).
  set (a := if pubkey_algo sigp =? PGPPUBKEYALGO_DSA then "DSA"
            else if pubkey_algo sigp =? PGPPUBKEYALGO_RSA then "RSA"
            else itoa (pubkey_algo sigp)).
  set (h := if hash_algo sigp =? PGPHASHALGO_MD5 then "MD5"
            else if hash_algo sigp =? PGPHASHALGO_SHA1 then "SHA1"
            else itoa (hash_algo sigp)).
  set (a' := if pubkey_algo sigp =? PGPPUBKEYALGO_DSA then "" ++ "DSA"
             else if pubkey_algo sigp =? PGPPUBKEYALGO_RSA then "" ++ "RSA"
             else "" ++ snprintf_d (nb - strlen "") (pubkey_algo sigp)).
  assert (Ha : a' = a \/ (nb <= strlen a' + 5)%nat).
  { subst a' a.
    destruct (pubkey_algo sigp =? PGPPUBKEYALGO_DSA); [now left|].
    destruct (pubkey_algo sigp =? PGPPUBKEYALGO_RSA); [now left|].
    simpl. destruct (snprintf_d_cases (nb - 0) (pubkey_algo sigp)) as [->|Hcut];
      [now left|right; lia]. }
  intros Hready.
  destruct (Nat.leb_spec nb (strlen a' + 5)) as [_|Hroom1]; [discriminate|].
  destruct Ha as [Ha|Hcut]; [|lia]. rewrite Ha in *. clear Ha a'.
  set (h' := if hash_algo sigp =? PGPHASHALGO_MD5 then (a ++ "/") ++ "MD5"
             else if hash_algo sigp =? PGPHASHALGO_SHA1 then (a ++ "/") ++ "SHA1"
             else (a ++ "/") ++ snprintf_d (nb - strlen (a ++ "/")) (hash_algo sigp)).
  assert (Hh : h' = (a ++ "/") ++ h \/ (nb <= strlen h' + strlen ", " + 1)%nat).
  { subst h' h.
    destruct (hash_algo sigp =? PGPHASHALGO_MD5); [now left|].
    destruct (hash_algo sigp =? PGPHASHALGO_SHA1); [now left|].
    destruct (snprintf_d_cases (nb - strlen (a ++ "/")) (hash_algo sigp))
      as [->|Hcut]; [now left|right].
    rewrite strlen_app, Hcut. rewrite strlen_app in *. simpl in *. lia. }
  destruct (Nat.leb_spec nb (strlen h' + strlen ", " + 1)) as [_|Hroom2];
    [discriminate|].
  destruct Hh as [Hh|Hcut]; [|lia]. rewrite Hh in *. clear Hh h'.
  unfold strftime.
  destruct (localtime dateint) as [tstruct|].
  - set (room := (nb - strlen (((a ++ "/") ++ h) ++ ", "))%nat) in *.
    destruct (Nat.ltb_spec (strlen (strftime_full "%c" tstruct)) room)
      as [Hfits|Hover].
    + destruct (Nat.leb_spec nb
                  (strlen ((((a ++ "/") ++ h) ++ ", ") ++ strftime_full "%c" tstruct)
                   + strlen ", Key ID " + 1)); [discriminate|].
      destruct (Nat.ltb_spec nb
                  (strlen (((((a ++ "/") ++ h) ++ ", ") ++ strftime_full "%c" tstruct)
                           ++ ", Key ID ") + strlen k)); [discriminate|].
      intros Hval. injection Hval as <-.
      repeat rewrite str_app_assoc. reflexivity.
    + destruct Hready as [Hfits|Hfill]; [lia|].
      destruct (Nat.leb_spec nb
                  (strlen ((((a ++ "/") ++ h) ++ ", ") ++
                           strftime_overflow room "%c" tstruct)
                   + strlen ", Key ID " + 1)) as [_|Hroom3]; [discriminate|].
      exfalso. rewrite strlen_app in Hroom3. simpl in Hroom3. lia.
  - destruct (Nat.leb_spec nb
                (strlen (((a ++ "/") ++ h) ++ ", ") + strlen ", Key ID " + 1));
      [discriminate|].
    destruct (Nat.ltb_spec nb
                (strlen ((((a ++ "/") ++ h) ++ ", ") ++ ", Key ID ") + strlen k));
      [discriminate|].
    intros Hval. injection Hval as <-.
    repeat rewrite str_app_assoc. reflexivity.
Qed.

(** A run whose buffer holds the summary up to the date and three bytes
    more writes the algorithm names in full, and its result rests on what
    [strftime] leaves in the buffer: that string, whatever it is, goes
    into the summary when the two slack tests after it pass. *)
Lemma pgpsig_pass_from_date (sigp : pgpDigParams) (nb : nat) :
  (strlen (pgpsig_before_date sigp) + 3 < nb)%nat ->
  pgpsig_pass sigp nb
  = let t := pgpsig_before_date sigp in
    let t :=
      match localtime (pgpGrab (time sigp) sizeof_time) with
      | Some tstruct => t ++ strftime (nb - strlen t) "%c" tstruct
      | None => t
      end in
    if (nb <=? strlen t + strlen ", Key ID " + 1)%nat then None else
    let t := t ++ ", Key ID " in
    let tempstr := pgpHexStr (signid sigp) sizeof_signid in
    if (nb <? strlen t + strlen tempstr)%nat then None else
    Some (t ++ tempstr).
Proof.
  unfold pgpsig_before_date, pgpsig_pass, pubkey_algo_name, hash_algo_name.
  intros Hnb. repeat rewrite strlen_app in Hnb. simpl in Hnb.
  assert (Ha : (if pubkey_algo sigp =? PGPPUBKEYALGO_DSA then "" ++ "DSA"
                else if pubkey_algo sigp =? PGPPUBKEYALGO_RSA then "" ++ "RSA"
                else "" ++ snprintf_d (nb - strlen "") (pubkey_algo sigp))
               = (if pubkey_algo sigp =? PGPPUBKEYALGO_DSA then "DSA"
                  else if pubkey_algo sigp =? PGPPUBKEYALGO_RSA then "RSA"
                  else itoa (pubkey_algo sigp))).
  { destruct (pubkey_algo sigp =? PGPPUBKEYALGO_DSA); [reflexivity|].
    destruct (pubkey_algo sigp =? PGPPUBKEYALGO_RSA); [reflexivity|].
    simpl. rewrite snprintf_d_roomy; [reflexivity|]. simpl. lia. }
  rewrite Ha. clear Ha.
  set (a := if pubkey_algo sigp =? PGPPUBKEYALGO_DSA then "DSA"
            else if pubkey_algo sigp =? PGPPUBKEYALGO_RSA then "RSA"
            else itoa (pubkey_algo sigp)) in *.
  assert (Hh : (if hash_algo sigp =? PGPHASHALGO_MD5 then (a ++ "/") ++ "MD5"
                else if hash_algo sigp =? PGPHASHALGO_SHA1 then (a ++ "/") ++ "SHA1"
                else (a ++ "/") ++ snprintf_d (nb - strlen (a ++ "/")) (hash_algo sigp))
               = (a ++ "/") ++
                 (if hash_algo sigp =? PGPHASHALGO_MD5 then "MD5"
                  else if hash_algo sigp =? PGPHASHALGO_SHA1 then "SHA1"
                  else itoa (hash_algo sigp))).
  { destruct (hash_algo sigp =? PGPHASHALGO_MD5); [reflexivity|].
    destruct (hash_algo sigp =? PGPHASHALGO_SHA1); [reflexivity|].
    rewrite snprintf_d_roomy; [reflexivity|].
    rewrite strlen_app. simpl. lia. }
  set (h := if hash_algo sigp =? PGPHASHALGO_MD5 then "MD5"
            else if hash_algo sigp =? PGPHASHALGO_SHA1 then "SHA1"
            else itoa (hash_algo sigp)) in *.
  destruct (Nat.leb_spec nb (strlen a + 5)) as [Hbad|_]; [lia|].
  rewrite Hh. clear Hh.
  destruct (Nat.leb_spec nb (strlen ((a ++ "/") ++ h) + strlen ", " + 1))
    as [Hbad|_].
  { repeat rewrite strlen_app in Hbad. simpl in Hbad. lia. }
  reflexivity.
Qed.

(** A run that comes to its end ends the loop. *)
Lemma pgpsig_again_done (sigp : pgpDigParams) (nb : nat) (val : string) :
  pgpsig_pass sigp (nb + 100) = Some val -> pgpsig_again sigp nb = val.
Proof.
  intros Hpass. funelim (pgpsig_again sigp nb).
  - congruence.
  - congruence.
Qed.

(** When the date does not fit what the first buffer has left, and the
    string [strftime] leaves there is short, the loop does not start over:
    it returns the summary with that string in place of the date. *)
Lemma pgpsig_again_date_overflow (sigp : pgpDigParams) (tstruct : tm) :
  localtime (pgpGrab (time sigp) sizeof_time) = Some tstruct ->
  let before := pgpsig_before_date sigp in
  let room := (100 - strlen before)%nat in
  let left := strftime_overflow room "%c" tstruct in
  let keyid := pgpHexStr (signid sigp) sizeof_signid in
  (room <= strlen (strftime_full "%c" tstruct))%nat ->
  (strlen before + strlen left + strlen ", Key ID " + strlen keyid <= 100)%nat ->
  (strlen before + strlen left + 10 < 100)%nat ->
  pgpsig_again sigp 0 = ((before ++ left) ++ ", Key ID ") ++ keyid.
Proof.
  intros Htime before room left keyid Hover Hkeyid Hslack.
  apply pgpsig_again_done. change (0 + 100)%nat with 100%nat.
  rewrite pgpsig_pass_from_date by (fold before; lia).
  rewrite Htime. fold before. unfold strftime. fold room.
  destruct (Nat.ltb_spec (strlen (strftime_full "%c" tstruct)) room) as [Hfit|_];
    [lia|].
  fold left. fold keyid. cbv zeta.
  destruct (Nat.leb_spec 100 (strlen (before ++ left) + strlen ", Key ID " + 1))
    as [Hbad|_].
  { rewrite strlen_app in Hbad. simpl in Hbad. lia. }
  destruct (Nat.ltb_spec 100 (strlen ((before ++ left) ++ ", Key ID ") + strlen keyid))
    as [Hbad|_].
  { repeat rewrite strlen_app in Hbad. simpl in Hbad, Hkeyid. lia. }
  reflexivity.
Qed.

(** The loop agrees with the rendering in one go whenever the date is in
    good hands at every size the loop may reach. *)
Lemma pgpsig_again_sound (sigp : pgpDigParams) :
  (forall nb : nat, (100 <= nb)%nat -> date_ready sigp nb) ->
  pgpsig_again sigp 0 = pgpsig_single_pass sigp.
Proof.
  intros Hready.
  destruct (pgpsig_again_is_a_pass sigp 0) as [restarts Hpass].
  apply (pgpsig_pass_sound sigp (0 + 100 * S restarts)); [|assumption].
  apply Hready. lia.
Qed.

(** It does so when the summary up to and including the date is shorter
    than the first buffer. *)
Lemma pgpsig_again_date_fits (sigp : pgpDigParams) :
  (strlen (pgpsig_before_date sigp ++ sig_date sigp) < 100)%nat ->
  pgpsig_again sigp 0 = pgpsig_single_pass sigp.
Proof.
  intros Hfits. apply pgpsig_again_sound. intros nb Hnb.
  unfold date_ready. unfold sig_date in Hfits. rewrite strlen_app in Hfits.
  destruct (localtime (pgpGrab (time sigp) sizeof_time)); [|exact I].
  left. lia.
Qed.

Lemma pgpsig_again_overflow_fills (sigp : pgpDigParams) :
  strftime_overflow_fills ->
  pgpsig_again sigp 0 = pgpsig_single_pass sigp.
Proof.
  intros Hfill. apply pgpsig_again_sound. intros nb _.
  unfold date_ready.
  destruct (localtime (pgpGrab (time sigp) sizeof_time)); [|exact I].
  right. apply Hfill.
Qed.

End Signature.

(** ** The packet header *)

Lemma nonzero_land_bit (v k : Z) :
  0 <= k -> nonzero (Z.land v (2 ^ k)) = Z.testbit v k.
Proof.
  intros Hk. unfold nonzero. destruct (Z.testbit v k) eqn:Hbit.
  - destruct (Z.eqb_spec (Z.land v (2 ^ k)) 0) as [Hzero|_]; [|reflexivity].
    assert (Hset : Z.testbit (Z.land v (2 ^ k)) k = true).
    { rewrite Z.land_spec, Hbit, Z.pow2_bits_true by assumption. reflexivity. }
    rewrite Hzero, Z.bits_0 in Hset. discriminate.
  - replace (Z.land v (2 ^ k)) with 0; [reflexivity|].
    symmetry. apply Z.bits_inj'. intros n Hn.
    rewrite Z.land_spec, Z.bits_0, Z.pow2_bits_eqb by assumption.
    destruct (Z.eqb_spec k n) as [<-|_].
    + rewrite Hbit. reflexivity.
    + apply andb_false_r.
Qed.

Lemma pgpGrab_range (s : list Z) (nbytes : nat) : 0 <= pgpGrab s nbytes < 2 ^ 32.
Proof.
  unfold pgpGrab.
  assert (Hfold : forall (l : list Z) (i : Z), 0 <= i < 2 ^ 32 ->
            0 <= fold_left (fun i b => Z.lor (Z.shiftl i 8) b mod 2 ^ 32) l i < 2 ^ 32).
  { induction l as [|b l IH]; intros i Hi; simpl; [assumption|].
    apply IH. apply Z.mod_pos_bound. reflexivity. }
  apply Hfold. split; [lia|reflexivity].
Qed.

Section Header.
Context `{E : Env}.

Lemma pgpsig_header_not_a_packet (v : Z) (rest : list Z) :
  Z.testbit v 7 = false -> pgpsig_header v rest = Some (0, 0).
Proof.
  intros Hbit. unfold pgpsig_header.
  change 128 with (2 ^ 7). rewrite nonzero_land_bit, Hbit by lia. reflexivity.
Qed.

Lemma pgpsig_header_old_format (v : Z) (rest : list Z) :
  old_format_signature v rest ->
  pgpsig_header v rest = Some (PGPTAG_SIGNATURE, old_format_pktlen v rest) /\
  old_format_pktlen v rest <> 0.
Proof.
  intros (Hbit7 & Hbit6 & Htag & Hread).
  unfold pgpsig_header, old_format_pktlen.
  change 128 with (2 ^ 7). change 64 with (2 ^ 6).
  rewrite !nonzero_land_bit, Hbit7, Hbit6 by lia.
  assert (Hlen : 0 <= Z.land v 3 <= 3).
  { change 3 with (Z.ones 2). rewrite Z.land_ones by lia.
    pose proof (Z.mod_pos_bound v (2 ^ 2) eq_refl) as Hmod.
    change (2 ^ 2) with 4 in *. change (Z.ones 2) with 3. lia. }
  rewrite Z.shiftl_1_l.
  unfold readable. rewrite (proj2 (Nat.leb_le _ _) Hread).
  pose proof (pgpGrab_range rest (Z.to_nat (2 ^ Z.land v 3))) as Hgrab.
  assert (Hpow : 1 <= 2 ^ Z.land v 3 <= 8).
  { split.
    - pose proof (Z.pow_pos_nonneg 2 (Z.land v 3)). lia.
    - change 8 with (2 ^ 3). apply Z.pow_le_mono_r; lia. }
  rewrite Htag. split; [|lia].
  do 2 f_equal. apply Z.mod_small. unfold SIZE_MOD.
  change (2 ^ 32) with 4294967296 in Hgrab.
  change (2 ^ 64) with 18446744073709551616. lia.
Qed.

(** A run on the parameters of a DSA signature over SHA1 starts with the
    names of the two. *)
Lemma pgpsig_pass_dsa_sha1 (sigp : pgpDigParams) (nb : nat) (val : string) :
  PGPHASHALGO_MD5 <> PGPHASHALGO_SHA1 ->
  pubkey_algo sigp = PGPPUBKEYALGO_DSA ->
  hash_algo sigp = PGPHASHALGO_SHA1 ->
  pgpsig_pass sigp nb = Some val ->
  exists rest : string, val = "DSA/SHA1, " ++ rest.
Proof.
  intros Hids Hpub Hhash. unfold pgpsig_pass.
  rewrite Hpub, Hhash, Z.eqb_refl.
  destruct (Z.eqb_spec PGPHASHALGO_SHA1 PGPHASHALGO_MD5) as [Heq|_];
    [exfalso; apply Hids; symmetry; exact Heq|].
  rewrite Z.eqb_refl. simpl.
  repeat match goal with
         | |- context [if ?c then None else _] => destruct c; [discriminate|]
         end.
  intros Hval. injection Hval as <-.
  destruct (localtime _); simpl; eexists; reflexivity.
Qed.

(** C5.  On a Binary value whose first byte has bit 7 clear the pgpsig
    converter returns exactly "(not an OpenPGP signature)".  On a Binary
    value that starts with an old-format signature packet from which the
    parser reads DSA as the public key algorithm and SHA1 as the hash
    algorithm, the converter returns a string (the loop ends) that starts
    with "DSA/SHA1, ". *)
Theorem pgpsig_not_a_packet_or_dsa_sha1
    (Hmsg : untranslated) (Hids : PGPHASHALGO_MD5 <> PGPHASHALGO_SHA1)
    (td : rpmtd) (formatPrefix : string) (v : Z) (rest : list Z) :
  rpmtdType td = RPM_BIN_TYPE ->
  td_bytes td = Some (v :: rest) ->
  (Z.testbit v 7 = false ->
   pgpsigFormat td formatPrefix
   = Ret (Some "(not an OpenPGP signature)") formatPrefix) /\
  (old_format_signature v rest ->
   pubkey_algo (pgpPrtPkts (v :: rest) (old_format_pktlen v rest))
   = PGPPUBKEYALGO_DSA ->
   hash_algo (pgpPrtPkts (v :: rest) (old_format_pktlen v rest))
   = PGPHASHALGO_SHA1 ->
   exists summary : string,
     pgpsigFormat td formatPrefix
     = Ret (Some ("DSA/SHA1, " ++ summary)) formatPrefix).
Proof.
  intros Hkind Hbytes. unfold pgpsigFormat. rewrite Hkind, Hbytes. simpl.
  split.
  - intros Hbit. rewrite (pgpsig_header_not_a_packet v rest Hbit). simpl.
    rewrite Hmsg. reflexivity.
  - intros Hsig Hpub Hhash.
    destruct (pgpsig_header_old_format v rest Hsig) as [-> Hlen]. simpl.
    destruct (Z.eqb_spec (old_format_pktlen v rest) 0) as [|_]; [contradiction|].
    rewrite Z.eqb_refl. simpl.
    destruct (pgpsig_again_is_a_pass
                (pgpPrtPkts (v :: rest) (old_format_pktlen v rest)) 0)
      as [restarts Hpass].
    destruct (pgpsig_pass_dsa_sha1 _ _ _ Hids Hpub Hhash Hpass) as [summary ->].
    exists summary. reflexivity.
Qed.

End Header.

(** ** The loop and the date *)

(** C1.  The claim: on a Binary value with a valid signature packet the
    loop of [pgpsigFormat] ends, and returns what a rendering in one go
    into an unbounded buffer gives.  The loop does end on every input
    ([pgpsig_again] is total), and it agrees with the rendering in one go
    whenever the date fits the first buffer ([pgpsig_again_date_fits]),
    also after a restart (the last two lines below).  But the loop never
    looks at what [strftime] returns: when the date does not fit what is
    left of the first 100 bytes, the run goes on with whatever the failed
    call left in the buffer instead of starting over
    ([pgpsig_again_date_overflow]).  With glibc that is the empty string:
    for the packet below, in a locale that writes a date of 96 bytes, the
    rendering in one go has the date and the converter returns the
    summary without it. *)
Theorem pgpsig_long_date_is_dropped :
  let sigp := @pgpPrtPkts env_verbose_dates dsa_sha1_packet 21 in
  @pgpsig_single_pass env_verbose_dates sigp
  = "DSA/SHA1, Friday, day 13 of the month of February in the year 2009, at 23 hours, 31 minutes and 30 seconds, Key ID 01020304050607ab" /\
  @pgpsigFormat env_verbose_dates (td_binary dsa_sha1_packet) "%"
  = Ret (Some "DSA/SHA1, , Key ID 01020304050607ab") "%" /\
  @pgpsigFormat env_verbose_dates (td_binary dsa_sha1_packet) "%"
  <> Ret (Some (@pgpsig_single_pass env_verbose_dates sigp)) "%" /\
  @pgpsig_pass env_long_dates sigp 100 = None /\
  @pgpsigFormat env_long_dates (td_binary dsa_sha1_packet) "%"
  = Ret (Some (@pgpsig_single_pass env_long_dates sigp)) "%".
Proof.
  cbv zeta. repeat split; try (vm_compute; reflexivity).
  vm_compute. discriminate.
Qed.

(** ** XML *)

Lemma concat_cons_nonempty (x : string) (xs : list string) :
  String.concat "" (x :: xs) = x ++ String.concat "" xs.
Proof.
  destruct xs as [|y ys]; simpl; [now rewrite str_app_nil_r|reflexivity].
Qed.

Lemma xml_escape_cons (c : ascii) (s : string) :
  xml_escape (String c s) = xml_escape_char c ++ xml_escape s.
Proof. unfold xml_escape. simpl map. apply concat_cons_nonempty. Qed.

Lemma xml_escape_loop_spec (s new_s : string) :
  xml_escape_loop s new_s = new_s ++ xml_escape s.
Proof.
  revert new_s. induction s as [|c s IH]; intros new_s; simpl.
  - unfold xml_escape. simpl. now rewrite str_app_nil_r.
  - rewrite xml_escape_cons. unfold xml_escape_char, rstrcat.
    destruct (Ascii.eqb c "<"); [|destruct (Ascii.eqb c ">");
      [|destruct (Ascii.eqb c "&")]];
      rewrite IH, str_app_assoc; reflexivity.
Qed.

Section Xml.
Context `{E : Env}.

(** [xmlFormat] is the converter the table holds in its xml slot run
    against that very table. *)
Lemma xmlFormat_unfold (td : rpmtd) (formatPrefix : string) :
  xmlFormat td formatPrefix = xmlFormat_with xmlFormat td formatPrefix.
Proof.
  unfold xmlFormat at 1. unfold xmlFormat_with.
  destruct (rpmtdType td); reflexivity.
Qed.

Lemma rpmtdFormat_string (td : rpmtd) (s : string) :
  printf_plain_s ->
  string_kind (rpmtdType td) ->
  rpmtdGetString td = Some s ->
  rpmtdFormat td RPMTD_FORMAT_STRING = Ret (Some s) "%s".
Proof.
  intros Hplain Hkind Hstr.
  unfold rpmtdFormat, rpmtdFormat_with. simpl. unfold stringFormat.
  destruct Hkind as [Hk|[Hk|Hk]]; rewrite Hk, Hstr; simpl;
    rewrite Hplain; reflexivity.
Qed.

(** C7.  On a string-kind value with string [s], rendered with the bare
    template, the xml converter replaces each [<], [>] and [&] of [s] by
    [&lt;], [&gt;] and [&amp;], keeps every other character, and wraps
    the result as a tab, [<string>], the text, [</string>]; an empty text
    gives a tab and [<string/>]; [a<b&c] gives a tab and
    [<string>a&lt;b&amp;c</string>]. *)
Theorem xml_escapes_string
    (Hplain : printf_plain_s) (td : rpmtd) (formatPrefix s : string) :
  string_kind (rpmtdType td) ->
  rpmtdGetString td = Some s ->
  xmlFormat td formatPrefix
  = Ret (Some (if String.eqb s "" then TAB ++ "<string/>"
               else TAB ++ "<string>" ++ xml_escape s ++ "</string>"))
        (formatPrefix ++ "s") /\
  (s = "a<b&c" ->
   xmlFormat td formatPrefix
   = Ret (Some (TAB ++ "<string>a&lt;b&amp;c</string>")) (formatPrefix ++ "s")).
Proof.
  intros Hkind Hstr.
  assert (Hxml : xmlFormat td formatPrefix
                 = Ret (Some (if String.eqb s "" then TAB ++ "<string/>"
                              else TAB ++ "<string>" ++ xml_escape s ++ "</string>"))
                       (formatPrefix ++ "s")).
  { pose proof (rpmtdFormat_string td s Hplain Hkind Hstr) as Hinner.
    rewrite xmlFormat_unfold. unfold xmlFormat_with.
    assert (Hval : forall new_s : string,
               new_s = xml_escape s ->
               match s with
               | "" => rstrscat [TAB ++ "<"; "string"; "/>"]
               | String _ _ =>
                   rstrscat [TAB ++ "<"; "string"; ">"; new_s; "</"; "string"; ">"]
               end
               = (if String.eqb s "" then TAB ++ "<string/>"
                  else TAB ++ "<string>" ++ xml_escape s ++ "</string>")).
    { intros new_s ->. destruct s as [|c s']; [reflexivity|].
      unfold rstrscat. simpl String.eqb. cbv iota.
      repeat rewrite concat_cons_nonempty. simpl String.concat.
      unfold TAB. simpl. repeat rewrite str_app_assoc. reflexivity. }
    destruct Hkind as [Hk|[Hk|Hk]]; rewrite Hk;
      change (rpmtdFormat_with xmlFormat td RPMTD_FORMAT_STRING)
        with (rpmtdFormat td RPMTD_FORMAT_STRING);
      rewrite Hinner; unfold deref, strcat;
      rewrite <- (Hval (xml_escape_loop s ""));
      try reflexivity; apply xml_escape_loop_spec. }
  split; [exact Hxml|].
  intros ->. exact Hxml.
Qed.

End Xml.

(** ** Shell quoting *)

Lemma shescape_copy_escapes (s : string) :
  shescape_copy s
  = String.concat "" (map sh_escape_char (list_ascii_of_string s)).
Proof.
  induction s as [|c s IH]; [reflexivity|].
  change (list_ascii_of_string (String c s)) with (c :: list_ascii_of_string s).
  rewrite map_cons, concat_cons_nonempty, <- IH.
  unfold sh_escape_char. simpl. destruct (Ascii.eqb c "'"); reflexivity.
Qed.

Lemma shescape_copy_spec (s : string) :
  String "'" (shescape_copy s ++ "'") = sh_quote s.
Proof.
  unfold sh_quote. rewrite shescape_copy_escapes. reflexivity.
Qed.

Lemma sh_read_copy (s : string) :
  sh_read true (shescape_copy s ++ "'") = Some s.
Proof.
  induction s as [|c s IH]; simpl; [reflexivity|].
  destruct (Ascii.eqb c "'") eqn:Hc.
  - simpl. rewrite IH. apply Ascii.eqb_eq in Hc. subst c. reflexivity.
  - simpl. rewrite Hc, IH. reflexivity.
Qed.

(** Read back by the shell, a quoted string is the string. *)
Lemma sh_eval_quote (s : string) : sh_eval (sh_quote s) = Some s.
Proof.
  rewrite <- shescape_copy_spec. unfold sh_eval. simpl. apply sh_read_copy.
Qed.

(** C4, as the claim states it, fails: the converter quotes what the
    template of the caller rendered, and with a width of five the shell
    reads the padded text back, not the string. *)
Lemma shescape_pads_inside_the_quotes :
  @shescapeFormat CLocale.env (td_string "ab") "%5" = Ret (Some "'   ab'") "%5s" /\
  sh_eval "'   ab'" = Some "   ab" /\
  sh_eval "'   ab'" <> Some "ab".
Proof. repeat split; try reflexivity. discriminate. Qed.

Section Shescape.
Context `{E : Env}.

(** C4, amended.  On a string-kind value with string [s] and for every
    template, the shescape converter returns, between single quotes, what
    the template of the caller with [s] appended renders for [s], each
    single quote of it turned into the four characters quote, backslash,
    quote, quote; a POSIX shell reads that word back as exactly what the
    template rendered.  With the bare template that is [s] itself: from
    O'Brien the converter makes 'O'\''Brien'.  On an Int32 value it
    returns what the template with [d] appended renders for the integer,
    the decimal numeral with the bare template. *)
Theorem shescape_quotes_for_the_shell
    (Hplain_s : printf_plain_s) (Hplain_d : printf_plain_d)
    (td : rpmtd) (formatPrefix : string) :
  (forall s : string,
      string_kind (rpmtdType td) ->
      rpmtdGetString td = Some s ->
      let buf := rasprintf (formatPrefix ++ "s") (Arg_str s) in
      shescapeFormat td formatPrefix
      = Ret (Some (sh_quote buf)) (formatPrefix ++ "s") /\
      sh_eval (sh_quote buf) = Some buf /\
      (formatPrefix = "%" ->
       shescapeFormat td formatPrefix = Ret (Some (sh_quote s)) "%s" /\
       sh_eval (sh_quote s) = Some s) /\
      (formatPrefix = "%" ->
       s = "O'Brien" ->
       shescapeFormat td formatPrefix = Ret (Some "'O'\''Brien'") "%s")) /\
  (forall n : Z,
      rpmtdGetUint32 td = Some n ->
      shescapeFormat td formatPrefix
      = Ret (Some (rasprintf (formatPrefix ++ "d") (Arg_int n)))
            (formatPrefix ++ "d") /\
      (formatPrefix = "%" ->
       shescapeFormat td formatPrefix = Ret (Some (itoa (int32_of n))) "%d")).
Proof.
  split.
  - intros s Hkind Hstr buf.
    assert (Hcall : shescapeFormat td formatPrefix
                    = Ret (Some (sh_quote buf)) (formatPrefix ++ "s")).
    { unfold shescapeFormat.
      destruct Hkind as [Hk|[Hk|Hk]]; rewrite Hk; simpl; rewrite Hstr; simpl;
        unfold strcat; fold buf; rewrite shescape_copy_spec; reflexivity. }
    assert (Hbare : formatPrefix = "%" -> buf = s).
    { intros Hfmt. subst buf. rewrite Hfmt. simpl. apply Hplain_s. }
    split; [exact Hcall|]. split; [apply sh_eval_quote|]. split.
    + intros Hfmt. rewrite Hcall, (Hbare Hfmt), Hfmt.
      split; [reflexivity|apply sh_eval_quote].
    + intros Hfmt Hs. rewrite Hcall, (Hbare Hfmt), Hfmt, Hs. reflexivity.
  - intros n Hitem.
    assert (Hcall : shescapeFormat td formatPrefix
                    = Ret (Some (rasprintf (formatPrefix ++ "d") (Arg_int n)))
                          (formatPrefix ++ "d")).
    { assert (Hkind : rpmtdType td = RPM_INT32_TYPE).
      { unfold rpmtdGetUint32 in Hitem.
        destruct (rpmtdType td); try discriminate. reflexivity. }
      unfold shescapeFormat. rewrite Hkind, Hitem. reflexivity. }
    split; [exact Hcall|].
    intros Hfmt. rewrite Hcall, Hfmt. simpl. rewrite Hplain_d. reflexivity.
Qed.

End Shescape.

(** ** The template *)

(** C2, as the claim states it, fails: the triggertype converter accepts
    an Int32 value with the trigger-in bit and returns "in" without
    appending anything to the template. *)
Lemma triggertype_leaves_the_template :
  @triggertypeFormat CLocale.env (td_int32 65536) "%" = Ret (Some "in") "%" /\
  ~ @appends_and_renders CLocale.env
      (@triggertypeFormat CLocale.env) (td_int32 65536) "%".
Proof.
  split; [reflexivity|].
  intros (spec & val & Hin & Hcall & _).
  vm_compute in Hcall. injection Hcall as _ Hspec.
  subst spec. vm_compute in Hin.
  repeat (destruct Hin as [Hin|Hin]; [discriminate Hin|]). exact Hin.
Qed.

Section TemplateUse.
Context `{E : Env}.

Ltac looked_up H :=
  cbv [rpmHeaderFormatFuncByName rpmHeaderFormats rpmHeaderFormats_with
       scan_by_name name func String.eqb Ascii.eqb Bool.eqb andb] in H;
  injection H as <-.

Ltac appended :=
  refine (ex_intro _ _ (ex_intro _ _ (conj _ (conj eq_refl _))));
  [simpl; tauto | first [apply rendered_plain | apply rendered_quoted]].

Lemma uint32_kind (td : rpmtd) (n : Z) :
  rpmtdGetUint32 td = Some n -> rpmtdType td = RPM_INT32_TYPE.
Proof.
  unfold rpmtdGetUint32. destruct (rpmtdType td); try discriminate. reflexivity.
Qed.

Lemma stringFormat_appends (td : rpmtd) (formatPrefix : string) :
  accepts "string" td -> appends_and_renders stringFormat td formatPrefix.
Proof.
  unfold accepts, has_uint32, has_string. simpl.
  unfold appends_and_renders, stringFormat.
  intros [[n H]|[[n H]|[[n H]|[[n H]|[[s H]|[Hk [data H]]]]]]].
  - rewrite H. unfold rpmtdGetChar in H.
    destruct (rpmtdType td); try discriminate H; appended.
  - rewrite H. unfold rpmtdGetUint16 in H.
    destruct (rpmtdType td); try discriminate H; appended.
  - rewrite H, (uint32_kind td n H). appended.
  - rewrite H. unfold rpmtdGetUint64 in H.
    destruct (rpmtdType td); try discriminate H; appended.
  - rewrite H. unfold rpmtdGetString in H.
    destruct (rpmtdType td); try discriminate H; appended.
  - rewrite Hk, H. appended.
Qed.

Lemma shescapeFormat_appends (td : rpmtd) (formatPrefix : string) :
  accepts "shescape" td -> appends_and_renders shescapeFormat td formatPrefix.
Proof.
  unfold accepts, has_uint32, has_string. simpl.
  unfold appends_and_renders, shescapeFormat.
  intros [[n H]|[s H]].
  - rewrite H, (uint32_kind td n H). appended.
  - rewrite H. unfold rpmtdGetString in H.
    destruct (rpmtdType td); try discriminate H; appended.
Qed.

Ltac same_for_every_template :=
  repeat match goal with
         | |- context [match ?x with _ => _ end] => destruct x
         | |- context [if ?x then _ else _] => destruct x
         end;
  repeat split; intros; try discriminate; try congruence.

(** The armor, pgpsig and triggertype converters do with one template
    what they do with any other. *)
Lemma fixed_formats_ignore_the_template (f : converter) (td : rpmtd)
    (formatPrefix other : string) :
  f = armorFormat \/ f = pgpsigFormat \/ f = triggertypeFormat ->
  (f td formatPrefix = Fault -> f td other = Fault) /\
  (forall val formatPrefix',
      f td formatPrefix = Ret val formatPrefix' ->
      formatPrefix' = formatPrefix /\ f td other = Ret val other).
Proof.
  intros [Hf|[Hf|Hf]]; subst f.
  - unfold armorFormat, deref. same_for_every_template.
  - unfold pgpsigFormat, deref. same_for_every_template.
  - unfold triggertypeFormat, deref. same_for_every_template.
Qed.

(** The xml converter appends [s] on the kinds it has a tag for, and
    returns the same for every template. *)
Lemma xmlFormat_ignores_the_template (td : rpmtd) (formatPrefix other : string) :
  (xmlFormat td formatPrefix = Fault -> xmlFormat td other = Fault) /\
  (forall val formatPrefix',
      xmlFormat td formatPrefix = Ret val formatPrefix' ->
      formatPrefix' = xml_template td formatPrefix /\
      xmlFormat td other = Ret val (xml_template td other)).
Proof.
  unfold xmlFormat, xmlFormat_with, xml_template, xml_kind, deref, strcat.
  destruct (rpmtdType td);
    try match goal with
        | |- context [rpmtdFormat_with ?x ?t ?c] =>
            destruct (rpmtdFormat_with x t c) as [|[s|] inner]
        end;
    repeat split; intros; try discriminate; try congruence.
Qed.

(** C2, amended.  The string, octal, hex, date, day, shescape, perms,
    fflags, depflags, arraysize and base64 converters of the registry, on
    every value they accept, append exactly one conversion specifier to
    the template they are given, leave what the caller put there as it
    was, and return what the resulting template renders (shescape between
    quotes).  The armor, pgpsig and triggertype converters never change
    the template and never use it: what they return for one template they
    return for every other.  The xml converter appends [s] to the
    template on every kind it has a tag for (all but Null and Int64,
    where it leaves the template as it is) and renders without it: what
    it returns for one template it returns for every other. *)
Theorem converters_and_the_template (td : rpmtd) (formatPrefix : string) :
  (forall (fmt_name : string) (f : converter),
      In fmt_name template_formats ->
      rpmHeaderFormatFuncByName fmt_name = Some f ->
      accepts fmt_name td ->
      appends_and_renders f td formatPrefix) /\
  (forall (fmt_name : string) (f : converter),
      In fmt_name fixed_formats ->
      rpmHeaderFormatFuncByName fmt_name = Some f ->
      forall other : string,
        (f td formatPrefix = Fault -> f td other = Fault) /\
        (forall val formatPrefix',
            f td formatPrefix = Ret val formatPrefix' ->
            formatPrefix' = formatPrefix /\ f td other = Ret val other)) /\
  (forall (f : converter),
      rpmHeaderFormatFuncByName "xml" = Some f ->
      forall other : string,
        (f td formatPrefix = Fault -> f td other = Fault) /\
        (forall val formatPrefix',
            f td formatPrefix = Ret val formatPrefix' ->
            formatPrefix' = xml_template td formatPrefix /\
            f td other = Ret val (xml_template td other))).
Proof.
  split; [|split].
  - intros fmt_name f Hin Hf Hacc. simpl in Hin.
    repeat (destruct Hin as [<-|Hin]; [looked_up Hf|]); try contradiction.
    + now apply stringFormat_appends.
    + destruct Hacc as [n H]. unfold appends_and_renders, octalFormat.
      rewrite H, (uint32_kind td n H). appended.
    + destruct Hacc as [n H]. unfold appends_and_renders, hexFormat.
      rewrite H, (uint32_kind td n H). appended.
    + destruct Hacc as [n H].
      unfold appends_and_renders, dateFormat, realDateFormat.
      rewrite H, (uint32_kind td n H). appended.
    + destruct Hacc as [n H].
      unfold appends_and_renders, dayFormat, realDateFormat.
      rewrite H, (uint32_kind td n H). appended.
    + now apply shescapeFormat_appends.
    + destruct Hacc as [n H]. unfold appends_and_renders, permsFormat.
      rewrite H, (uint32_kind td n H). appended.
    + destruct Hacc as [n H]. unfold appends_and_renders.
      rewrite (fflagsFormat_letters td formatPrefix n H). appended.
    + destruct Hacc as [n H]. unfold appends_and_renders, depflagsFormat.
      rewrite H, (uint32_kind td n H). appended.
    + unfold appends_and_renders, arraysizeFormat. appended.
    + destruct Hacc as [Hk [enc H]]. unfold appends_and_renders.
      rewrite (base64Format_encoded td formatPrefix enc Hk H). appended.
  - intros fmt_name f Hin Hf other. simpl in Hin.
    apply fixed_formats_ignore_the_template.
    repeat (destruct Hin as [<-|Hin]; [looked_up Hf; tauto|]). contradiction.
  - intros f Hf other. looked_up Hf. apply xmlFormat_ignores_the_template.
Qed.

End TemplateUse.

(** ** The concrete environment meets the laws *)

Lemma env_untranslated : @untranslated CLocale.env.
Proof. intros msg. reflexivity. Qed.

Lemma env_printf_plain_s : @printf_plain_s CLocale.env.
Proof.
  intros s. simpl. unfold CLocale.rasprintf. simpl.
  unfold CLocale.render, CLocale.pad_left. simpl.
  apply str_app_nil_r.
Qed.

Lemma env_printf_plain_d : @printf_plain_d CLocale.env.
Proof.
  intros n. simpl. unfold CLocale.rasprintf. simpl CLocale.parse_directive.
  cbv iota beta. rewrite str_app_nil_r.
  unfold CLocale.render. simpl.
  unfold int32_of, itoa.
  unfold CLocale.justify, CLocale.digits_with_precision, CLocale.pad_left. simpl.
  change (Z.pow_pos 2 32) with (2 ^ 32). change (Z.pow_pos 2 31) with (2 ^ 31).
  set (m := if n mod 2 ^ 32 <? 2 ^ 31 then n mod 2 ^ 32 else n mod 2 ^ 32 - 2 ^ 32).
  destruct (Z.ltb_spec m 0) as [Hneg|Hpos]; simpl.
  - rewrite Z.abs_neq by lia. reflexivity.
  - rewrite Z.abs_eq by lia. reflexivity.
Qed.

Lemma env_file_flags_distinct : @file_flags_distinct CLocale.env.
Proof.
  unfold file_flags_distinct, disjoint_from. simpl.
  repeat split; try discriminate; repeat constructor.
Qed.

Lemma env_hash_ids_distinct :
  @PGPHASHALGO_MD5 CLocale.env <> @PGPHASHALGO_SHA1 CLocale.env.
Proof. discriminate. Qed.

(** ** The statements on concrete inputs *)

Lemma number_formats_reject_other_kinds_witness :
  rpmtdType (td_string "rpm") <> RPM_INT32_TYPE /\
  In "octal" number_formats /\
  exists f : converter,
    @rpmHeaderFormatFuncByName CLocale.env "octal" = Some f /\
    f (td_string "rpm") "%-8" = Ret (Some "(not a number)") "%-8".
Proof.
  assert (Hkind : rpmtdType (td_string "rpm") <> RPM_INT32_TYPE) by discriminate.
  assert (Hin : In "octal" number_formats) by (simpl; auto).
  split; [exact Hkind|]. split; [exact Hin|].
  exact (@number_formats_reject_other_kinds CLocale.env env_untranslated
           (td_string "rpm") "%-8" "octal" Hkind Hin).
Defined.

Lemma pgpsig_rejects_other_kinds_witness :
  rpmtdType (td_int32 7) <> RPM_BIN_TYPE /\
  @pgpsigFormat CLocale.env (td_int32 7) "%" = Ret (Some "(not a blob)") "%".
Proof.
  assert (Hkind : rpmtdType (td_int32 7) <> RPM_BIN_TYPE) by discriminate.
  split; [exact Hkind|].
  exact (proj1 (@pgpsig_rejects_other_kinds CLocale.env env_untranslated
                  (td_int32 7) "%" Hkind)).
Defined.

Lemma fflags_fixed_order_witness :
  rpmtdGetUint32 (td_int32 66) = Some 66 /\
  66 = Z.lor (@RPMFILE_GHOST CLocale.env) (@RPMFILE_DOC CLocale.env) /\
  @fflagsFormat CLocale.env (td_int32 66) "%-4"
  = Ret (Some (@rasprintf CLocale.env "%-4s" (Arg_str "dg"))) "%-4s" /\
  @fflagsFormat CLocale.env (td_int32 66) "%" = Ret (Some "dg") "%s".
Proof.
  split; [reflexivity|]. split; [reflexivity|]. split.
  - exact (proj1 (@fflags_fixed_order CLocale.env env_printf_plain_s
                    env_file_flags_distinct (td_int32 66) "%-4" 66 eq_refl)).
  - exact (proj1 (proj2 (proj2 (proj2
             (@fflags_fixed_order CLocale.env env_printf_plain_s
                env_file_flags_distinct (td_int32 66) "%" 66 eq_refl)))
             eq_refl eq_refl)).
Defined.

Lemma dsa_sha1_packet_old_format :
  @old_format_signature CLocale.env 136 (tl dsa_sha1_packet).
Proof.
  unfold old_format_signature. repeat split. simpl. lia.
Qed.

Lemma pgpsig_not_a_packet_or_dsa_sha1_witness :
  @pgpsigFormat CLocale.env (td_binary [1; 2; 3]) "%"
  = Ret (Some "(not an OpenPGP signature)") "%" /\
  exists summary : string,
    @pgpsigFormat CLocale.env (td_binary dsa_sha1_packet) "%"
    = Ret (Some ("DSA/SHA1, " ++ summary)) "%".
Proof.
  split.
  - exact (proj1 (@pgpsig_not_a_packet_or_dsa_sha1 CLocale.env env_untranslated
                    env_hash_ids_distinct (td_binary [1; 2; 3]) "%" 1 [2; 3]
                    eq_refl eq_refl) eq_refl).
  - exact (proj2 (@pgpsig_not_a_packet_or_dsa_sha1 CLocale.env env_untranslated
                    env_hash_ids_distinct (td_binary dsa_sha1_packet) "%"
                    136 (tl dsa_sha1_packet) eq_refl eq_refl)
             dsa_sha1_packet_old_format eq_refl eq_refl).
Defined.

Lemma xml_escapes_string_witness :
  string_kind (rpmtdType (td_string "a<b&c")) /\
  @xmlFormat CLocale.env (td_string "a<b&c") "%"
  = Ret (Some (TAB ++ "<string>a&lt;b&amp;c</string>")) "%s".
Proof.
  assert (Hkind : string_kind (rpmtdType (td_string "a<b&c"))) by (left; reflexivity).
  split; [exact Hkind|].
  exact (proj2 (@xml_escapes_string CLocale.env env_printf_plain_s
                  (td_string "a<b&c") "%" "a<b&c" Hkind eq_refl) eq_refl).
Defined.

Lemma shescape_quotes_for_the_shell_witness :
  @shescapeFormat CLocale.env (td_string "O'Brien") "%-9"
  = Ret (Some "'O'\''Brien  '") "%-9s" /\
  sh_eval "'O'\''Brien  '" = Some "O'Brien  " /\
  @shescapeFormat CLocale.env (td_string "O'Brien") "%"
  = Ret (Some "'O'\''Brien'") "%s" /\
  sh_eval "'O'\''Brien'" = Some "O'Brien" /\
  @shescapeFormat CLocale.env (td_int32 4294967295) "%" = Ret (Some "-1") "%d".
Proof.
  pose proof (@shescape_quotes_for_the_shell CLocale.env env_printf_plain_s
                env_printf_plain_d (td_string "O'Brien") "%-9") as [Hwide _].
  destruct (Hwide "O'Brien" (or_introl eq_refl) eq_refl) as (Hcall & Hread & _).
  pose proof (@shescape_quotes_for_the_shell CLocale.env env_printf_plain_s
                env_printf_plain_d (td_string "O'Brien") "%") as [Hbare _].
  destruct (Hbare "O'Brien" (or_introl eq_refl) eq_refl) as (_ & _ & Hs & _).
  destruct (Hs eq_refl) as [Hquote Hback].
  split; [exact Hcall|]. split; [exact Hread|].
  split; [exact Hquote|]. split; [exact Hback|].
  exact (proj2 (proj2 (@shescape_quotes_for_the_shell CLocale.env
                         env_printf_plain_s env_printf_plain_d
                         (td_int32 4294967295) "%") 4294967295 eq_refl)
           eq_refl).
Defined.

Lemma converters_and_the_template_witness :
  @appends_and_renders CLocale.env (@octalFormat CLocale.env) (td_int32 493) "%04" /\
  @triggertypeFormat CLocale.env (td_int32 65536) "%-7" = Ret (Some "in") "%-7" /\
  @xmlFormat CLocale.env (td_string "a<b") "%-7"
  = Ret (Some (TAB ++ "<string>a&lt;b</string>")) "%-7s".
Proof.
  pose proof (@converters_and_the_template CLocale.env (td_int32 493) "%04")
    as [Happends _].
  pose proof (@converters_and_the_template CLocale.env (td_int32 65536) "%")
    as [_ [Hfixed _]].
  pose proof (@converters_and_the_template CLocale.env (td_string "a<b") "%")
    as [_ [_ Hxml]].
  split; [|split].
  - apply (Happends "octal").
    + simpl. auto.
    + reflexivity.
    + exists 493. reflexivity.
  - apply (proj2 (Hfixed "triggertype" (@triggertypeFormat CLocale.env)
                    (or_intror (or_intror (or_introl eq_refl))) eq_refl "%-7")
             (Some "in") "%" eq_refl).
  - apply (proj2 (Hxml (@xmlFormat CLocale.env) eq_refl "%-7")
             (Some (TAB ++ "<string>a&lt;b</string>")) "%s" eq_refl).
Defined.

(** * Further properties *)

(** ** The table and its two lookups *)

Section Lookups.
Context `{E : Env}.

Lemma registry_cases (n : string) (f : converter) :
  rpmHeaderFormatFuncByName n = Some f -> In (n, f) registered.
Proof.
  unfold rpmHeaderFormatFuncByName, rpmHeaderFormats, rpmHeaderFormats_with.
  cbn [scan_by_name name func]. intros H.
  repeat match type of H with
         | (if String.eqb ?a n then _ else _) = _ =>
             destruct (String.eqb_spec a n) as [<-|_];
             [injection H as <-; simpl; tauto|]
         end.
  discriminate H.
Qed.

(** X1.  Every entry of the table is reached by both lookups: its name and its
    code lead to its converter, also for "permissions", which shares its
    code with "perms".  Lookup by code finds a converter for every code. *)
Theorem lookups_reach_every_entry :
  (forall (e : headerFormatFunc_s) (n : string) (c : rpmtdFormats),
      In e rpmHeaderFormats ->
      name e = Some n ->
      fmt e = Some c ->
      func e <> None /\
      rpmHeaderFormatFuncByName n = func e /\
      rpmHeaderFormatFuncByValue c = func e) /\
  (forall c : rpmtdFormats, rpmHeaderFormatFuncByValue c <> None).
Proof.
  split.
  - intros e n c Hin Hname Hfmt.
    unfold rpmHeaderFormats, rpmHeaderFormats_with in Hin. simpl in Hin.
    repeat (destruct Hin as [<-|Hin];
            [simpl in Hname, Hfmt; injection Hname as <-; injection Hfmt as <-;
             repeat split; discriminate|]).
    destruct Hin as [<-|[]]. discriminate Hname.
  - intros c. destruct c; discriminate.
Qed.

End Lookups.

(** ** What every converter of the table keeps to *)

Section Registered.
Context `{E : Env}.

(** Case analysis on whatever a hypothesis still matches on. *)
Ltac split_cases H :=
  repeat match type of H with
         | context [match ?x with _ => _ end] => destruct x eqn:?
         | context [if ?x then _ else _] => destruct x eqn:?
         end.

Ltac unfold_converters H :=
  unfold stringFormat, armorFormat, base64Format, pgpsigFormat, depflagsFormat,
    fflagsFormat, permsFormat, triggertypeFormat, xmlFormat, xmlFormat_with,
    octalFormat, hexFormat, dateFormat, dayFormat, realDateFormat,
    shescapeFormat, arraysizeFormat, deref, strcat in H.

(** X2.  A converter never takes anything away from the template: what it
    hands back is the template it was given, or that template with one
    conversion specifier after it; this holds on every value, accepted or
    not. *)
Theorem template_only_grows (n : string) (f : converter) (td : rpmtd)
    (formatPrefix : string) (val : option string) (formatPrefix' : string) :
  rpmHeaderFormatFuncByName n = Some f ->
  f td formatPrefix = Ret val formatPrefix' ->
  formatPrefix' = formatPrefix \/
  exists spec : string,
    In spec conversion_specifiers /\ formatPrefix' = formatPrefix ++ spec.
Proof.
  intros Hf Hret. apply registry_cases in Hf. simpl in Hf.
  repeat (destruct Hf as [Hf|Hf]; [injection Hf as <- <-|]); try contradiction.
  all: unfold_converters Hret; split_cases Hret; try discriminate Hret.
  all: injection Hret as <- <-.
  all: first [left; reflexivity
             |right; eexists; split; [|reflexivity]; simpl; tauto].
Qed.

(** X3.  The only converter that can return [NULL] is the base64 converter,
    and only on a Binary value whose encoding failed. *)
Theorem null_only_from_base64 (n : string) (f : converter) (td : rpmtd)
    (formatPrefix formatPrefix' : string) :
  rpmHeaderFormatFuncByName n = Some f ->
  f td formatPrefix = Ret None formatPrefix' ->
  n = "base64" /\
  rpmtdType td = RPM_BIN_TYPE /\
  b64encode (td_bytes td) (td_count td) = None /\
  formatPrefix' = formatPrefix.
Proof.
  intros Hf Hret. apply registry_cases in Hf. simpl in Hf.
  repeat (destruct Hf as [Hf|Hf]; [injection Hf as <- <-|]); try contradiction.
  all: unfold_converters Hret; split_cases Hret; try discriminate Hret.
  injection Hret as <-.
  repeat split; try assumption.
  match goal with
  | H : negb (rpmTagType_eqb _ _) = false |- _ =>
      apply negb_false_iff, rpmTagType_eqb_eq in H; exact H
  end.
Qed.





End Registered.

(** ** Flags *)

Section Flags.
Context `{E : Env}.

(** X5.  On an Int32 value the triggertype converter names the first trigger
    phase, in the order pre-install, install, uninstall, post-uninstall,
    whose bit is set, whatever other bits are set, and returns the empty
    string when none is; the template stays as it was. *)
Theorem triggertype_first_phase (td : rpmtd) (formatPrefix : string) (item : Z) :
  rpmtdGetUint32 td = Some item ->
  triggertypeFormat td formatPrefix
  = Ret (Some (first_name_of trigger_names item)) formatPrefix /\
  (nonzero (Z.land item RPMSENSE_TRIGGERPREIN) = true ->
   triggertypeFormat td formatPrefix = Ret (Some "prein") formatPrefix) /\
  (Forall (fun fl => Z.land item (fst fl) = 0) trigger_names ->
   triggertypeFormat td formatPrefix = Ret (Some "") formatPrefix).
Proof.
  intros Hitem.
  assert (Hkind : rpmtdType td = RPM_INT32_TYPE).
  { unfold rpmtdGetUint32 in Hitem. destruct (rpmtdType td); try discriminate.
    reflexivity. }
  assert (Hcall : triggertypeFormat td formatPrefix
                  = Ret (Some (first_name_of trigger_names item)) formatPrefix).
  { unfold triggertypeFormat. rewrite Hkind, Hitem. simpl.
    unfold first_name_of, trigger_names. simpl.
    destruct (nonzero (Z.land item RPMSENSE_TRIGGERPREIN)); [reflexivity|].
    destruct (nonzero (Z.land item RPMSENSE_TRIGGERIN)); [reflexivity|].
    destruct (nonzero (Z.land item RPMSENSE_TRIGGERUN)); [reflexivity|].
    destruct (nonzero (Z.land item RPMSENSE_TRIGGERPOSTUN)); reflexivity. }
  rewrite Hcall. split; [reflexivity|]. split.
  - intros Hpre. unfold first_name_of, trigger_names. simpl. rewrite Hpre.
    reflexivity.
  - intros Hnone. unfold first_name_of, trigger_names in *. simpl.
    repeat match goal with
           | H : Forall _ (_ :: _) |- _ => inversion H; clear H; subst
           end.
    cbn [fst] in *.
    repeat match goal with
           | H : Z.land item _ = 0 |- _ => rewrite H; clear H
           end.
    reflexivity.
Qed.

Lemma depflagsFormat_letters (td : rpmtd) (formatPrefix : string) (anint : Z) :
  rpmtdGetUint32 td = Some anint ->
  depflagsFormat td formatPrefix
  = Ret (Some (rasprintf (formatPrefix ++ "s")
                 (Arg_str (letters_of depflags_letters anint))))
        (formatPrefix ++ "s").
Proof.
  intros Hitem. unfold depflagsFormat.
  rewrite (uint32_kind td anint Hitem), Hitem. simpl. unfold strcat.
  do 2 f_equal. f_equal. f_equal.
  unfold letters_of, depflags_letters, strcat_if, strcat. simpl.
  destruct (nonzero (Z.land anint RPMSENSE_LESS));
  destruct (nonzero (Z.land anint RPMSENSE_GREATER));
  destruct (nonzero (Z.land anint RPMSENSE_EQUAL)); reflexivity.
Qed.

Lemma nonzero_land_lor_present (a b : Z) :
  a <> 0 -> Z.land b a = 0 -> nonzero (Z.land (Z.lor a b) a) = true.
Proof.
  intros Ha Hb. apply nonzero_true.
  rewrite Z.land_lor_distr_l, Z.land_diag, Hb, Z.lor_0_r. exact Ha.
Qed.

(** X6.  On an Int32 value the depflags converter, given the bare template,
    writes the signs of the comparison flags that are set in the order
    less, greater, equal: LESS with EQUAL gives "<=", GREATER with EQUAL
    gives ">=", and EQUAL alone "=". *)
Theorem depflags_fixed_order
    (Hplain : printf_plain_s) (Hbits : sense_flags_distinct)
    (td : rpmtd) (anint : Z) :
  rpmtdGetUint32 td = Some anint ->
  depflagsFormat td "%" = Ret (Some (letters_of depflags_letters anint)) "%s" /\
  (anint = Z.lor RPMSENSE_EQUAL RPMSENSE_LESS ->
   depflagsFormat td "%" = Ret (Some "<=") "%s") /\
  (anint = Z.lor RPMSENSE_EQUAL RPMSENSE_GREATER ->
   depflagsFormat td "%" = Ret (Some ">=") "%s") /\
  (anint = RPMSENSE_EQUAL -> depflagsFormat td "%" = Ret (Some "=") "%s").
Proof.
  intros Hitem.
  rewrite (depflagsFormat_letters td "%" anint Hitem). simpl.
  rewrite Hplain. split; [reflexivity|].
  destruct Hbits as ([Hl Hl'] & [Hg Hg'] & [He He']).
  repeat match goal with
         | H : Forall _ (_ :: _) |- _ => inversion H; clear H; subst
         end.
  cbv beta in *.
  unfold letters_of, depflags_letters. simpl.
  repeat split; intros ->.
  - rewrite (nonzero_land_lor_present RPMSENSE_EQUAL RPMSENSE_LESS) by assumption.
    rewrite (nonzero_land_lor_absent RPMSENSE_EQUAL RPMSENSE_LESS RPMSENSE_GREATER)
      by assumption.
    rewrite Z.lor_comm.
    rewrite (nonzero_land_lor_present RPMSENSE_LESS RPMSENSE_EQUAL) by assumption.
    reflexivity.
  - rewrite (nonzero_land_lor_absent RPMSENSE_EQUAL RPMSENSE_GREATER RPMSENSE_LESS)
      by assumption.
    rewrite (nonzero_land_lor_present RPMSENSE_EQUAL RPMSENSE_GREATER) by assumption.
    rewrite Z.lor_comm.
    rewrite (nonzero_land_lor_present RPMSENSE_GREATER RPMSENSE_EQUAL) by assumption.
    reflexivity.
  - rewrite Z.land_diag, (nonzero_true RPMSENSE_EQUAL He).
    replace (Z.land RPMSENSE_EQUAL RPMSENSE_LESS) with 0 by (symmetry; assumption).
    replace (Z.land RPMSENSE_EQUAL RPMSENSE_GREATER) with 0
      by (symmetry; assumption).
    reflexivity.
Qed.

Lemma letters_of_strlen (letters : list (Z * string)) (anint : Z) :
  Forall (fun fl => strlen (snd fl) = 1%nat) letters ->
  (strlen (letters_of letters anint) <= List.length letters)%nat.
Proof.
  unfold letters_of. induction letters as [|fl letters IH]; intros Hone.
  - simpl. lia.
  - inversion Hone as [|? ? Hfl Hrest]; subst. specialize (IH Hrest).
    cbn [filter List.length].
    destruct (nonzero (Z.land anint (fst fl))).
    + rewrite map_cons, concat_cons_nonempty, strlen_app, Hfl. lia.
    + lia.
Qed.

(** X7.  The flag letters fit the arrays they are collected in: the fflags
    converter hands at most 8 characters of its [buf[15]] to the template,
    the depflags converter at most 3 of its [buf[10]], whatever bits the
    value has. *)
Theorem flag_buffers_suffice (td : rpmtd) (formatPrefix : string) (anint : Z) :
  rpmtdGetUint32 td = Some anint ->
  (exists buf : string,
      fflagsFormat td formatPrefix
      = Ret (Some (rasprintf (formatPrefix ++ "s") (Arg_str buf)))
            (formatPrefix ++ "s") /\
      (strlen buf <= 8)%nat /\ (strlen buf + 1 <= 15)%nat) /\
  (exists buf : string,
      depflagsFormat td formatPrefix
      = Ret (Some (rasprintf (formatPrefix ++ "s") (Arg_str buf)))
            (formatPrefix ++ "s") /\
      (strlen buf <= 3)%nat /\ (strlen buf + 1 <= 10)%nat).
Proof.
  intros Hitem. split.
  - exists (letters_of fflags_letters anint).
    split; [exact (fflagsFormat_letters td formatPrefix anint Hitem)|].
    pose proof (letters_of_strlen fflags_letters anint) as Hlen.
    simpl in Hlen. assert (Hone : (strlen (letters_of fflags_letters anint) <= 8)%nat).
    { apply Hlen. repeat constructor. }
    lia.
  - exists (letters_of depflags_letters anint).
    split; [exact (depflagsFormat_letters td formatPrefix anint Hitem)|].
    pose proof (letters_of_strlen depflags_letters anint) as Hlen.
    simpl in Hlen. assert (Hone : (strlen (letters_of depflags_letters anint) <= 3)%nat).
    { apply Hlen. repeat constructor. }
    lia.
Qed.

End Flags.

(** ** Shell quoting: the size of the result *)

Lemma shescape_copy_strlen (src : string) :
  (strlen src <= strlen (shescape_copy src) <= 4 * strlen src)%nat.
Proof.
  unfold strlen. induction src as [|c src IH]; simpl; [lia|].
  destruct (Ascii.eqb c "'"); simpl; lia.
Qed.

Section ShescapeSize.
Context `{E : Env}.

(** X8.  On a string the shescape converter writes its result, the closing NUL
    included, within the [strlen(buf) * 4 + 3] bytes it allocates, where
    [buf] is what the template rendered; the result is never shorter than
    [buf] and its two quotes. *)
Theorem shescape_fits_its_buffer (td : rpmtd) (formatPrefix s : string) :
  string_kind (rpmtdType td) ->
  rpmtdGetString td = Some s ->
  exists buf result : string,
    buf = rasprintf (formatPrefix ++ "s") (Arg_str s) /\
    shescapeFormat td formatPrefix = Ret (Some result) (formatPrefix ++ "s") /\
    (strlen result + 1 <= strlen buf * 4 + 3)%nat /\
    (strlen buf + 2 <= strlen result)%nat.
Proof.
  intros Hkind Hstr.
  exists (rasprintf (formatPrefix ++ "s") (Arg_str s)).
  exists (String "'" (shescape_copy (rasprintf (formatPrefix ++ "s") (Arg_str s))
                      ++ "'")).
  split; [reflexivity|]. split.
  - unfold shescapeFormat.
    destruct Hkind as [Hk|[Hk|Hk]]; rewrite Hk; simpl; rewrite Hstr; reflexivity.
  - pose proof (shescape_copy_strlen (rasprintf (formatPrefix ++ "s") (Arg_str s)))
      as Hlen.
    set (buf := rasprintf (formatPrefix ++ "s") (Arg_str s)) in *.
    assert (Hres : strlen (String "'" (shescape_copy buf ++ "'"))
                   = (strlen (shescape_copy buf) + 2)%nat).
    { change (strlen (String "'" (shescape_copy buf ++ "'")))
        with (S (strlen (shescape_copy buf ++ "'"))).
      rewrite strlen_app. simpl. lia. }
    rewrite Hres. lia.
Qed.

End ShescapeSize.

(** ** XML: what the escaping keeps *)

Lemma occurs_app (c : ascii) (a b : string) :
  occurs c (a ++ b) = occurs c a || occurs c b.
Proof.
  induction a as [|x a IH]; simpl; [reflexivity|].
  rewrite IH. apply orb_assoc.
Qed.

Lemma xml_unescape_escape (s : string) : xml_unescape (xml_escape s) = s.
Proof.
  induction s as [|c s IH]; [reflexivity|].
  rewrite xml_escape_cons. unfold xml_escape_char.
  destruct (Ascii.eqb c "<") eqn:Hlt.
  { apply Ascii.eqb_eq in Hlt. subst c. simpl. now rewrite IH. }
  destruct (Ascii.eqb c ">") eqn:Hgt.
  { apply Ascii.eqb_eq in Hgt. subst c. simpl. now rewrite IH. }
  destruct (Ascii.eqb c "&") eqn:Hamp.
  { apply Ascii.eqb_eq in Hamp. subst c. simpl. now rewrite IH. }
  simpl. rewrite Hamp, IH. reflexivity.
Qed.

Lemma xml_escape_no_markup (s : string) :
  occurs "<" (xml_escape s) = false /\ occurs ">" (xml_escape s) = false.
Proof.
  induction s as [|c s [IHlt IHgt]]; [split; reflexivity|].
  rewrite xml_escape_cons, !occurs_app, IHlt, IHgt, !orb_false_r.
  unfold xml_escape_char.
  destruct (Ascii.eqb c "<") eqn:Hlt; [split; reflexivity|].
  destruct (Ascii.eqb c ">") eqn:Hgt; [split; reflexivity|].
  destruct (Ascii.eqb c "&") eqn:Hamp; [split; reflexivity|].
  cbn [occurs]. rewrite !orb_false_r, (Ascii.eqb_sym "<" c), (Ascii.eqb_sym ">" c).
  split; assumption.
Qed.

(** X9.  The escaping loop of the xml converter loses nothing and lets no
    markup through: reading the three entities back gives the text it
    started from, so two texts never escape to the same string, and the
    escaped text holds neither [<] nor [>]. *)
Theorem xml_escape_loop_reversible :
  (forall s : string, xml_unescape (xml_escape_loop s "") = s) /\
  (forall s s' : string,
      xml_escape_loop s "" = xml_escape_loop s' "" -> s = s') /\
  (forall s : string,
      occurs "<" (xml_escape_loop s "") = false /\
      occurs ">" (xml_escape_loop s "") = false).
Proof.
  assert (Hloop : forall s, xml_escape_loop s "" = xml_escape s).
  { intros s. rewrite xml_escape_loop_spec. reflexivity. }
  split; [|split].
  - intros s. rewrite Hloop. apply xml_unescape_escape.
  - intros s s' Heq. rewrite !Hloop in Heq.
    rewrite <- (xml_unescape_escape s), <- (xml_unescape_escape s'), Heq.
    reflexivity.
  - intros s. rewrite Hloop. apply xml_escape_no_markup.
Qed.

Section XmlKinds.
Context `{E : Env}.

(** X10.  On a Binary value the xml converter wraps what the base64 converter
    renders with the bare template as a tab, [<base64>], the text,
    [</base64>], or as a tab and [<base64/>] when the encoding is empty;
    on the Null and Int64 kinds it answers "(invalid xml type)" and does
    not touch the template. *)
Theorem xml_wraps_base64_and_rejects
    (Hplain : printf_plain_s) (Hmsg : untranslated)
    (td : rpmtd) (formatPrefix : string) :
  (forall enc : string,
      rpmtdType td = RPM_BIN_TYPE ->
      b64encode (td_bytes td) (td_count td) = Some enc ->
      xmlFormat td formatPrefix
      = Ret (Some (if String.eqb enc "" then TAB ++ "<base64/>"
                   else TAB ++ "<base64>" ++ xml_escape enc ++ "</base64>"))
            (formatPrefix ++ "s")) /\
  (rpmtdType td = RPM_NULL_TYPE \/ rpmtdType td = RPM_INT64_TYPE ->
   xmlFormat td formatPrefix = Ret (Some "(invalid xml type)") formatPrefix).
Proof.
  split.
  - intros enc Hkind Henc.
    unfold xmlFormat, xmlFormat_with. rewrite Hkind.
    change (rpmtdFormat_with (fun _ _ => Fault) td RPMTD_FORMAT_BASE64)
      with (base64Format td "%").
    rewrite (base64Format_encoded td "%" enc Hkind Henc). simpl.
    rewrite Hplain. unfold strcat.
    destruct enc as [|c enc']; [reflexivity|].
    rewrite xml_escape_loop_spec. unfold rstrscat. simpl String.eqb. cbv iota.
    repeat rewrite concat_cons_nonempty. simpl String.concat.
    unfold TAB. simpl. repeat rewrite str_app_assoc. reflexivity.
  - intros [Hkind|Hkind]; unfold xmlFormat, xmlFormat_with; rewrite Hkind;
      rewrite Hmsg; reflexivity.
Qed.

End XmlKinds.

(** ** The signature summary in every environment *)

Section SummaryShape.
Context `{E : Env}.

(** A run that comes to its end had room for the summary up to the date
    and ten bytes more. *)
Lemma pgpsig_pass_some_room (sigp : pgpDigParams) (nb : nat) (val : string) :
  pgpsig_pass sigp nb = Some val ->
  (strlen (pgpsig_before_date sigp) + 10 < nb)%nat.
Proof.
  unfold pgpsig_before_date, pgpsig_pass, pubkey_algo_name, hash_algo_name.
  set (k := pgpHexStr (signid sigp) sizeof_signid).
  set (dateint := pgpGrab (time sigp) sizeof_time).
  set (a := if pubkey_algo sigp =? PGPPUBKEYALGO_DSA then "DSA"
            else if pubkey_algo sigp =? PGPPUBKEYALGO_RSA then "RSA"
            else itoa (pubkey_algo sigp)).
  set (h := if hash_algo sigp =? PGPHASHALGO_MD5 then "MD5"
            else if hash_algo sigp =? PGPHASHALGO_SHA1 then "SHA1"
            else itoa (hash_algo sigp)).
  set (a' := if pubkey_algo sigp =? PGPPUBKEYALGO_DSA then "" ++ "DSA"
             else if pubkey_algo sigp =? PGPPUBKEYALGO_RSA then "" ++ "RSA"
             else "" ++ snprintf_d (nb - strlen "") (pubkey_algo sigp)).
  assert (Ha : a' = a \/ (nb <= strlen a' + 5)%nat).
  { subst a' a.
    destruct (pubkey_algo sigp =? PGPPUBKEYALGO_DSA); [now left|].
    destruct (pubkey_algo sigp =? PGPPUBKEYALGO_RSA); [now left|].
    simpl. destruct (snprintf_d_cases (nb - 0) (pubkey_algo sigp)) as [->|Hcut];
      [now left|right; lia]. }
  destruct (Nat.leb_spec nb (strlen a' + 5)) as [_|Hroom1]; [discriminate|].
  destruct Ha as [Ha|Hcut]; [|lia]. rewrite Ha in *. clear Ha a'.
  set (h' := if hash_algo sigp =? PGPHASHALGO_MD5 then (a ++ "/") ++ "MD5"
             else if hash_algo sigp =? PGPHASHALGO_SHA1 then (a ++ "/") ++ "SHA1"
             else (a ++ "/") ++ snprintf_d (nb - strlen (a ++ "/")) (hash_algo sigp)).
  assert (Hh : h' = (a ++ "/") ++ h \/ (nb <= strlen h' + strlen ", " + 1)%nat).
  { subst h' h.
    destruct (hash_algo sigp =? PGPHASHALGO_MD5); [now left|].
    destruct (hash_algo sigp =? PGPHASHALGO_SHA1); [now left|].
    destruct (snprintf_d_cases (nb - strlen (a ++ "/")) (hash_algo sigp))
      as [->|Hcut]; [now left|right].
    rewrite strlen_app, Hcut. rewrite strlen_app in *. simpl in *. lia. }
  destruct (Nat.leb_spec nb (strlen h' + strlen ", " + 1)) as [_|Hroom2];
    [discriminate|].
  destruct Hh as [Hh|Hcut]; [|lia]. rewrite Hh in *. clear Hh h'.
  set (before := ((a ++ "/") ++ h) ++ ", ") in *.
  set (t := match localtime dateint with
            | Some tstruct => before ++ strftime (nb - strlen before) "%c" tstruct
            | None => before
            end).
  assert (Ht : (strlen before <= strlen t)%nat).
  { subst t. destruct (localtime dateint); [rewrite strlen_app|]; lia. }
  destruct (Nat.leb_spec nb (strlen t + strlen ", Key ID " + 1)) as [_|Hroom3];
    [discriminate|].
  intros _. simpl in Hroom3. lia.
Qed.

(** What a run returns: the algorithm names, the date or what a failed
    [strftime] left in its place, and the key id; it fits the buffer of
    the run. *)
Lemma pgpsig_pass_shape (sigp : pgpDigParams) (nb : nat) (val : string) :
  pgpsig_pass sigp nb = Some val ->
  exists date : string,
    val = ((pgpsig_before_date sigp ++ date) ++ ", Key ID ")
          ++ pgpHexStr (signid sigp) sizeof_signid /\
    (strlen val <= nb)%nat /\
    (date = sig_date sigp \/
     exists (tstruct : tm) (max : nat),
       localtime (pgpGrab (time sigp) sizeof_time) = Some tstruct /\
       (max <= strlen (strftime_full "%c" tstruct))%nat /\
       date = strftime_overflow max "%c" tstruct).
Proof.
  intros Hpass. pose proof (pgpsig_pass_some_room sigp nb val Hpass) as Hroom.
  rewrite pgpsig_pass_from_date in Hpass by lia. cbv zeta in Hpass.
  unfold sig_date.
  set (before := pgpsig_before_date sigp) in *.
  set (keyid := pgpHexStr (signid sigp) sizeof_signid) in *.
  assert (Hend : forall t : string,
             (if (nb <=? strlen t + strlen ", Key ID " + 1)%nat then None
              else if (nb <? strlen (t ++ ", Key ID ") + strlen keyid)%nat then None
              else Some ((t ++ ", Key ID ") ++ keyid)) = Some val ->
             val = (t ++ ", Key ID ") ++ keyid /\ (strlen val <= nb)%nat).
  { intros t.
    destruct (Nat.leb_spec nb (strlen t + strlen ", Key ID " + 1));
      [discriminate|].
    destruct (Nat.ltb_spec nb (strlen (t ++ ", Key ID ") + strlen keyid));
      [discriminate|].
    intros Hval. injection Hval as <-. split; [reflexivity|].
    rewrite strlen_app. lia. }
  destruct (localtime (pgpGrab (time sigp) sizeof_time)) as [tstruct|] eqn:Htime.
  - unfold strftime in Hpass.
    destruct (Nat.ltb_spec (strlen (strftime_full "%c" tstruct))
                (nb - strlen before)) as [Hfits|Hover].
    + exists (strftime_full "%c" tstruct).
      destruct (Hend _ Hpass) as [-> Hlen]. repeat split; auto.
    + exists (strftime_overflow (nb - strlen before) "%c" tstruct).
      destruct (Hend _ Hpass) as [-> Hlen]. repeat split; auto.
      right. exists tstruct, (nb - strlen before)%nat. repeat split; auto.
  - exists "". rewrite str_app_nil_r.
    destruct (Hend _ Hpass) as [-> Hlen]. repeat split; auto.
Qed.

(** The loop restarts only while the buffer is shorter than the whole
    summary and two bytes; every run before the last hit a [goto again],
    the last one returned. *)
Lemma pgpsig_again_restarts (sigp : pgpDigParams) (nb : nat) :
  exists restarts : nat,
    (forall k : nat, (k < restarts)%nat ->
                     pgpsig_pass sigp (nb + 100 * S k) = None) /\
    pgpsig_pass sigp (nb + 100 * S restarts) = Some (pgpsig_again sigp nb) /\
    (restarts = 0%nat \/
     (nb + 100 * restarts < strlen (pgpsig_single_pass sigp) + 2)%nat).
Proof.
  funelim (pgpsig_again sigp nb).
  - exists 0%nat. replace (nb + 100 * 1)%nat with (nb + 100)%nat by lia.
    split; [intros k Hk; lia|]. split; [assumption|left; reflexivity].
  - destruct H as (restarts & Hearlier & Hpass & Hbound). exists (S restarts).
    replace (nb + 100 * S (S restarts))%nat
      with (nb + 100 + 100 * S restarts)%nat by lia.
    split; [|split; [assumption|right]].
    + intros [|k] Hk.
      * replace (nb + 100 * 1)%nat with (nb + 100)%nat by lia. assumption.
      * replace (nb + 100 * S (S k))%nat
          with (nb + 100 + 100 * S k)%nat by lia.
        apply Hearlier. lia.
    + assert (Hshort : (nb + 100 < strlen (pgpsig_single_pass sigp) + 2)%nat).
      { destruct (Nat.le_gt_cases (strlen (pgpsig_single_pass sigp) + 2) (nb + 100))
          as [Hroomy|Hlt]; [|exact Hlt].
        pose proof (pgpsig_pass_roomy sigp (nb + 100) Hroomy) as Hsome.
        congruence. }
      destruct Hbound as [->|Hbound]; lia.
Qed.

(** X11.  Whatever the environment, the summary of a signature packet has the
    names of the two algorithms and the key id in full; between them
    stands the date, or what a [strftime] that had no room for it left in
    the buffer. *)
Theorem pgpsig_summary_shape (td : rpmtd) (formatPrefix : string)
    (v pktlen : Z) (rest : list Z) :
  rpmtdType td = RPM_BIN_TYPE ->
  td_bytes td = Some (v :: rest) ->
  pgpsig_header v rest = Some (PGPTAG_SIGNATURE, pktlen) ->
  pktlen <> 0 ->
  let sigp := pgpPrtPkts (v :: rest) pktlen in
  exists date : string,
    pgpsigFormat td formatPrefix
    = Ret (Some (pubkey_algo_name sigp ++ "/" ++ hash_algo_name sigp ++ ", "
                 ++ date ++ ", Key ID " ++ pgpHexStr (signid sigp) sizeof_signid))
          formatPrefix /\
    (date = sig_date sigp \/
     exists (tstruct : tm) (max : nat),
       localtime (pgpGrab (time sigp) sizeof_time) = Some tstruct /\
       (max <= strlen (strftime_full "%c" tstruct))%nat /\
       date = strftime_overflow max "%c" tstruct).
Proof.
  intros Hkind Hbytes Hheader Hlen sigp.
  unfold pgpsigFormat. rewrite Hkind, Hbytes. simpl. rewrite Hheader. simpl.
  destruct (Z.eqb_spec pktlen 0) as [|_]; [contradiction|].
  rewrite Z.eqb_refl. simpl. fold sigp.
  destruct (pgpsig_again_is_a_pass sigp 0) as [restarts Hpass].
  destruct (pgpsig_pass_shape sigp _ _ Hpass) as (date & Hval & _ & Hdate).
  exists date. split; [|exact Hdate].
  rewrite Hval. unfold pgpsig_before_date.
  repeat rewrite str_app_assoc. reflexivity.
Qed.

(** X12.  The loop of the summary is bounded, and its result is that of
    its first run that did not start over: with [restarts] the number of
    times it starts over, each of the runs before the last, with buffers
    of 101, 201, ... bytes, hits a [goto again]; the last run, with
    [100 * (restarts + 1) + 1] bytes, returns the string of the loop;
    [100 * restarts] is less than the length of the whole summary plus 2;
    and the string returned fits the buffer of the last run.  The number
    is determined by this: no other number of restarts has these
    properties. *)
Theorem pgpsig_loop_is_bounded (sigp : pgpDigParams) :
  exists restarts : nat,
    (forall k : nat, (k < restarts)%nat ->
                     pgpsig_pass sigp (100 * S k) = None) /\
    pgpsig_pass sigp (100 * S restarts) = Some (pgpsig_again sigp 0) /\
    (100 * restarts < strlen (pgpsig_single_pass sigp) + 2)%nat /\
    (strlen (pgpsig_again sigp 0) <= 100 * S restarts)%nat /\
    (forall n : nat,
        (forall k : nat, (k < n)%nat -> pgpsig_pass sigp (100 * S k) = None) ->
        pgpsig_pass sigp (100 * S n) <> None ->
        n = restarts).
Proof.
  destruct (pgpsig_again_restarts sigp 0)
    as (restarts & Hearlier & Hpass & Hbound).
  exists restarts. simpl plus in Hpass.
  assert (Hbefore : forall k : nat, (k < restarts)%nat ->
                                    pgpsig_pass sigp (100 * S k) = None).
  { intros k Hk. exact (Hearlier k Hk). }
  split; [exact Hbefore|]. split; [exact Hpass|]. split; [|split].
  - destruct Hbound as [->|Hbound]; lia.
  - destruct (pgpsig_pass_shape sigp _ _ Hpass) as (_ & _ & Hlen & _). exact Hlen.
  - intros n Hfailed Hreturned.
    destruct (Nat.lt_trichotomy n restarts) as [Hlt|[Heq|Hgt]].
    + elim Hreturned. apply Hbefore. exact Hlt.
    + exact Heq.
    + pose proof (Hfailed restarts Hgt) as Hnone.
      assert (Hsome : pgpsig_pass sigp (100 * S restarts)
                      = Some (pgpsig_again sigp 0)) by exact Hpass.
      rewrite Hnone in Hsome. discriminate.
Qed.

End SummaryShape.

(** ** Other packets, short data *)

Section OtherPackets.
Context `{E : Env}.

Lemma pgpsig_header_old (v : Z) (rest : list Z) :
  Z.testbit v 7 = true ->
  Z.testbit v 6 = false ->
  (Nat.min (Z.to_nat (2 ^ Z.land v 3)) 4 <= List.length rest)%nat ->
  pgpsig_header v rest
  = Some (Z.land (Z.shiftr v 2) 15, old_format_pktlen v rest) /\
  old_format_pktlen v rest <> 0.
Proof.
  intros Hbit7 Hbit6 Hread.
  unfold pgpsig_header, old_format_pktlen.
  change 128 with (2 ^ 7). change 64 with (2 ^ 6).
  rewrite !nonzero_land_bit, Hbit7, Hbit6 by lia.
  assert (Hlen : 0 <= Z.land v 3 <= 3).
  { change 3 with (Z.ones 2). rewrite Z.land_ones by lia.
    pose proof (Z.mod_pos_bound v (2 ^ 2) eq_refl) as Hmod.
    change (2 ^ 2) with 4 in *. change (Z.ones 2) with 3. lia. }
  rewrite Z.shiftl_1_l.
  unfold readable. rewrite (proj2 (Nat.leb_le _ _) Hread).
  pose proof (pgpGrab_range rest (Z.to_nat (2 ^ Z.land v 3))) as Hgrab.
  assert (Hpow : 1 <= 2 ^ Z.land v 3 <= 8).
  { split.
    - pose proof (Z.pow_pos_nonneg 2 (Z.land v 3)). lia.
    - change 8 with (2 ^ 3). apply Z.pow_le_mono_r; lia. }
  split; [|lia].
  do 2 f_equal. apply Z.mod_small. unfold SIZE_MOD.
  change (2 ^ 32) with 4294967296 in Hgrab.
  change (2 ^ 64) with 18446744073709551616. lia.
Qed.

(** X13.  The pgpsig converter on Binary values that are no signature.  It reads
    the first byte and the length field of the header without looking at
    the count: on a value without bytes, and on an old-format header whose
    length field is cut off, it reads past the data.  An old-format packet
    with any tag other than that of a signature gives "(not an OpenPGP
    signature)", whatever its length field says. *)
Theorem pgpsig_other_packets
    (Hmsg : untranslated) (td : rpmtd) (formatPrefix : string) :
  rpmtdType td = RPM_BIN_TYPE ->
  (td_bytes td = Some [] -> pgpsigFormat td formatPrefix = Fault) /\
  (forall (v : Z) (rest : list Z),
      td_bytes td = Some (v :: rest) ->
      Z.testbit v 7 = true ->
      Z.testbit v 6 = false ->
      (List.length rest < Nat.min (Z.to_nat (2 ^ Z.land v 3)) 4)%nat ->
      pgpsigFormat td formatPrefix = Fault) /\
  (forall (v : Z) (rest : list Z),
      td_bytes td = Some (v :: rest) ->
      Z.testbit v 7 = true ->
      Z.testbit v 6 = false ->
      (Nat.min (Z.to_nat (2 ^ Z.land v 3)) 4 <= List.length rest)%nat ->
      Z.land (Z.shiftr v 2) 15 <> PGPTAG_SIGNATURE ->
      pgpsigFormat td formatPrefix
      = Ret (Some "(not an OpenPGP signature)") formatPrefix).
Proof.
  intros Hkind. split; [|split].
  - intros Hbytes. unfold pgpsigFormat. rewrite Hkind, Hbytes. reflexivity.
  - intros v rest Hbytes Hbit7 Hbit6 Hshort.
    unfold pgpsigFormat. rewrite Hkind, Hbytes.
    cbn [rpmTagType_eqb negb deref nth_error tl].
    unfold pgpsig_header.
    change 128 with (2 ^ 7). change 64 with (2 ^ 6).
    rewrite !nonzero_land_bit, Hbit7, Hbit6 by lia.
    rewrite Z.shiftl_1_l. unfold readable.
    rewrite (proj2 (Nat.leb_gt _ _) Hshort). reflexivity.
  - intros v rest Hbytes Hbit7 Hbit6 Hread Htag.
    unfold pgpsigFormat. rewrite Hkind, Hbytes.
    cbn [rpmTagType_eqb negb deref nth_error tl].
    destruct (pgpsig_header_old v rest Hbit7 Hbit6 Hread) as [-> _].
    cbn [deref].
    destruct (Z.eqb_spec (Z.land (Z.shiftr v 2) 15) PGPTAG_SIGNATURE) as [|_];
      [contradiction|].
    cbn [negb]. rewrite orb_true_r, Hmsg. reflexivity.
Qed.

End OtherPackets.

(** ** Dates *)

Section Dates.
Context `{E : Env}.


End Dates.

(** ** The further statements on concrete inputs *)

Lemma env_sense_flags_distinct : @sense_flags_distinct CLocale.env.
Proof.
  unfold sense_flags_distinct, disjoint_from. simpl.
  repeat split; try discriminate; repeat constructor.
Qed.

Lemma lookups_reach_every_entry_witness :
  @rpmHeaderFormatFuncByName CLocale.env "permissions"
  = Some (@permsFormat CLocale.env) /\
  @rpmHeaderFormatFuncByValue CLocale.env RPMTD_FORMAT_PERMS
  = Some (@permsFormat CLocale.env).
Proof.
  pose proof (proj1 (@lookups_reach_every_entry CLocale.env)
                (mk_headerFormatFunc (Some RPMTD_FORMAT_PERMS) (Some "permissions")
                   (Some (@permsFormat CLocale.env)))
                "permissions" RPMTD_FORMAT_PERMS) as Hreach.
  apply Hreach.
  - unfold rpmHeaderFormats, rpmHeaderFormats_with. simpl. tauto.
  - reflexivity.
  - reflexivity.
Defined.

Lemma template_only_grows_witness :
  @octalFormat CLocale.env (td_int32 493) "%-6" = Ret (Some "755   ") "%-6o" /\
  ("%-6o" = "%-6" \/
   exists spec : string,
     In spec (@conversion_specifiers CLocale.env) /\ "%-6o" = "%-6" ++ spec).
Proof.
  split; [reflexivity|].
  exact (@template_only_grows CLocale.env "octal" (@octalFormat CLocale.env)
           (td_int32 493) "%-6" (Some "755   ") "%-6o" eq_refl eq_refl).
Defined.

Lemma null_only_from_base64_witness :
  @base64Format env_no_memory (td_binary [77; 97; 110]) "%" = Ret None "%" /\
  "base64" = "base64" /\
  rpmtdType (td_binary [77; 97; 110]) = RPM_BIN_TYPE /\
  @b64encode env_no_memory (td_bytes (td_binary [77; 97; 110]))
    (td_count (td_binary [77; 97; 110])) = None /\
  "%" = "%".
Proof.
  split; [reflexivity|].
  exact (@null_only_from_base64 env_no_memory "base64" (@base64Format env_no_memory)
           (td_binary [77; 97; 110]) "%" "%" eq_refl eq_refl).
Defined.



Lemma triggertype_first_phase_witness :
  @triggertypeFormat CLocale.env (td_int32 (33554432 + 65536)) "%"
  = Ret (Some "prein") "%".
Proof.
  exact (proj1 (proj2 (@triggertype_first_phase CLocale.env
                         (td_int32 (33554432 + 65536)) "%" (33554432 + 65536)
                         eq_refl))
           eq_refl).
Defined.

Lemma depflags_fixed_order_witness :
  @depflagsFormat CLocale.env (td_int32 10) "%" = Ret (Some "<=") "%s".
Proof.
  exact (proj1 (proj2 (@depflags_fixed_order CLocale.env env_printf_plain_s
                         env_sense_flags_distinct (td_int32 10) 10 eq_refl))
           eq_refl).
Defined.

Lemma flag_buffers_suffice_witness :
  exists buf : string,
    @fflagsFormat CLocale.env (td_int32 511) "%"
    = Ret (Some (@rasprintf CLocale.env "%s" (Arg_str buf))) "%s" /\
    (strlen buf <= 8)%nat /\ (strlen buf + 1 <= 15)%nat.
Proof.
  exact (proj1 (@flag_buffers_suffice CLocale.env (td_int32 511) "%" 511 eq_refl)).
Defined.

Lemma shescape_fits_its_buffer_witness :
  exists buf result : string,
    buf = @rasprintf CLocale.env "%s" (Arg_str "''") /\
    @shescapeFormat CLocale.env (td_string "''") "%" = Ret (Some result) "%s" /\
    (strlen result + 1 <= strlen buf * 4 + 3)%nat /\
    (strlen buf + 2 <= strlen result)%nat.
Proof.
  exact (@shescape_fits_its_buffer CLocale.env (td_string "''") "%" "''"
           (or_introl eq_refl) eq_refl).
Defined.

Lemma xml_wraps_base64_and_rejects_witness :
  @xmlFormat CLocale.env (td_binary [77; 97; 110]) "%"
  = Ret (Some (TAB ++ "<base64>TWFu</base64>")) "%s".
Proof.
  exact (proj1 (@xml_wraps_base64_and_rejects CLocale.env env_printf_plain_s
                  env_untranslated (td_binary [77; 97; 110]) "%")
           "TWFu" eq_refl eq_refl).
Defined.

Lemma pgpsig_summary_shape_witness :
  exists date : string,
    @pgpsigFormat CLocale.env (td_binary dsa_sha1_packet) "%"
    = Ret (Some ("DSA" ++ "/" ++ "SHA1" ++ ", " ++ date ++ ", Key ID "
                 ++ "01020304050607ab")) "%" /\
    (date = "Fri Feb 13 23:31:30 2009" \/
     exists (tstruct : tm) (max : nat),
       CLocale.localtime 1234567890 = Some tstruct /\
       (max <= strlen (CLocale.strftime_full CLocale.d_t_fmt_C "%c" tstruct))%nat /\
       date = CLocale.strftime_overflow max "%c" tstruct).
Proof.
  assert (Hlen : 21 <> 0) by discriminate.
  exact (@pgpsig_summary_shape CLocale.env (td_binary dsa_sha1_packet) "%"
           136 21 (tl dsa_sha1_packet) eq_refl eq_refl eq_refl Hlen).
Defined.

Lemma pgpsig_other_packets_witness :
  @pgpsigFormat CLocale.env (td_binary []) "%" = Fault /\
  @pgpsigFormat CLocale.env (td_binary [153; 0]) "%" = Fault /\
  @pgpsigFormat CLocale.env (td_binary [153; 0; 1; 4]) "%"
  = Ret (Some "(not an OpenPGP signature)") "%".
Proof.
  split; [|split].
  - exact (proj1 (@pgpsig_other_packets CLocale.env env_untranslated
                    (td_binary []) "%" eq_refl) eq_refl).
  - apply (proj1 (proj2 (@pgpsig_other_packets CLocale.env env_untranslated
                           (td_binary [153; 0]) "%" eq_refl)) 153 [0]);
      try reflexivity.
    simpl. lia.
  - apply (proj2 (proj2 (@pgpsig_other_packets CLocale.env env_untranslated
                           (td_binary [153; 0; 1; 4]) "%" eq_refl)) 153 [0; 1; 4]);
      try reflexivity.
    + simpl. lia.
    + discriminate.
Defined.

